(** * pyansys-geometry: parameterization and plane surface

    A shallow embedding of

    - [src/ansys/geometry/core/geometry/parameterization.py]
      (classes [ParamUV], [Interval]) and
    - [src/ansys/geometry/core/geometry/surfaces/plane.py]
      (classes [Plane], [PlaneEvaluation]),

    together with the properties of these classes that the design
    document of the repository states, and further properties of them
    and of class [Admin]
    ([src/ansys/geometry/core/connection/admin.py]).

    Conventions.  A Python call that may raise is a function into
    [result]; the exception classes that the two files can raise are
    the constructors of [exn].  Python objects whose class matters at
    run time (arguments annotated [object], arguments checked by the
    [check_input_types] decorator) are values of the sum type [pyval].
    Names follow the source; a dunder method [__eq__] of class [C] is
    [C.__eq__] here too. *)

From Stdlib Require Import QArith Qabs Lqa Lia Bool.
From Stdlib Require Import PrimFloat FloatOps SpecFloat.
From stdpp Require Import base option gmap strings list.

Set Default Proof Using "Type".

(** ** Exceptions and results *)

Inductive exn : Type :=
| ValueError (msg : string)
| TypeError (msg : string)
| AttributeError (msg : string)
| NotImplementedError (msg : string)
| ZeroDivisionError (msg : string)
| Exception (msg : string)
| BeartypeCallHintParamViolation (param : string)
| OverflowError (msg : string).

Inductive result (A : Type) : Type :=
| Ok (a : A)
| Raise (e : exn).
Arguments Ok {A} a.
Arguments Raise {A} e.

#[global] Instance result_ret : MRet result := fun A a => Ok a.
#[global] Instance result_bind : MBind result := fun A B k r =>
  match r with
  | Ok a => k a
  | Raise e => Raise e
  end.

(** ** Numbers

    [ansys.geometry.core.typing.Real] is the union of the Python and
    NumPy integer and floating-point types.  A number is modelled by
    its value: an exact rational, one of the two infinities, or
    not-a-number.  Finite arithmetic is exact (rounding and overflow of
    binary64 are not modelled); the special values follow IEEE 754 as
    Python exposes them.  Division is the one of the built-in [int]
    and [float]: a zero divisor raises [ZeroDivisionError].

    This view of a number serves the properties that rest on
    comparisons, on [min] and [max] and on the class of an object.
    What depends on the results of [+], [-], [*] and [/] (the
    operators of [ParamUV], [Interval.inflate]) is stated on the
    numbers of module [Py] below, which keep the class of a number and
    compute as the interpreter does. *)

Inductive Real : Type :=
| Fin (q : Q)
| PInf
| NInf
| NaN.

Module Num.

Definition sign_inf (q : Q) : Real :=
  match Qcompare q 0 with
  | Eq => NaN
  | Gt => PInf
  | Lt => NInf
  end.

Definition neg (a : Real) : Real :=
  match a with
  | Fin q => Fin (- q)
  | PInf => NInf
  | NInf => PInf
  | NaN => NaN
  end.

Definition add (a b : Real) : Real :=
  match a, b with
  | NaN, _ | _, NaN => NaN
  | Fin x, Fin y => Fin (x + y)
  | PInf, NInf | NInf, PInf => NaN
  | PInf, _ | _, PInf => PInf
  | NInf, _ | _, NInf => NInf
  end.

(** Python evaluates [a - b] on floats as IEEE subtraction, which is
    addition of the negated operand. *)
Definition sub (a b : Real) : Real := add a (neg b).

Definition mul (a b : Real) : Real :=
  match a, b with
  | NaN, _ | _, NaN => NaN
  | Fin x, Fin y => Fin (x * y)
  | Fin x, PInf | PInf, Fin x => sign_inf x
  | Fin x, NInf | NInf, Fin x => sign_inf (- x)
  | PInf, PInf | NInf, NInf => PInf
  | PInf, NInf | NInf, PInf => NaN
  end.

Definition is_zero (a : Real) : bool :=
  match a with
  | Fin q => Qeq_bool q 0
  | _ => false
  end.

(** The IEEE quotient for a divisor that is not zero. *)
Definition quot (a b : Real) : Real :=
  match a, b with
  | NaN, _ | _, NaN => NaN
  | Fin x, Fin y => Fin (x / y)
  | Fin _, (PInf | NInf) => Fin 0
  | PInf, Fin y => sign_inf y
  | NInf, Fin y => sign_inf (- y)
  | (PInf | NInf), (PInf | NInf) => NaN
  end.

(** [a / b]: the zero test on the divisor comes first, as in
    [float.__truediv__] and [int.__truediv__]. *)
Definition div (a b : Real) : result Real :=
  if is_zero b then Raise (ZeroDivisionError "division by zero")
  else Ok (quot a b).

(** [a < b]; every comparison with not-a-number is false. *)
Definition ltb (a b : Real) : bool :=
  match a, b with
  | NaN, _ | _, NaN => false
  | Fin x, Fin y => negb (Qle_bool y x)
  | _, NInf => false
  | NInf, _ => true
  | PInf, _ => false
  | Fin _, PInf => true
  end.

Definition gtb (a b : Real) : bool := ltb b a.

(** [a == b]; not-a-number differs from everything. *)
Definition eqb (a b : Real) : bool :=
  match a, b with
  | Fin x, Fin y => Qeq_bool x y
  | PInf, PInf | NInf, NInf => true
  | _, _ => false
  end.

(** Built-in [abs]. *)
Definition abs (a : Real) : Real :=
  match a with
  | Fin q => Fin (Qabs q)
  | PInf | NInf => PInf
  | NaN => NaN
  end.

(** Built-in two-argument [min] and [max]: the first argument is kept
    unless the second is strictly smaller (resp. larger). *)
Definition min (a b : Real) : Real := if ltb b a then b else a.
Definition max (a b : Real) : Real := if gtb b a then b else a.

(** [numpy.isneginf] and [numpy.isinf]. *)
Definition isneginf (a : Real) : bool :=
  match a with NInf => true | _ => false end.
Definition isinf (a : Real) : bool :=
  match a with PInf | NInf => true | _ => false end.

(** Two models denote the same number: rationals are compared as
    fractions, the special values are themselves. *)
Definition same (a b : Real) : Prop :=
  match a, b with
  | Fin x, Fin y => (x == y)%Q
  | PInf, PInf | NInf, NInf | NaN, NaN => True
  | _, _ => False
  end.


End Num.

Notation "a ≈ b" := (Num.same a b) (at level 70, no associativity).

(** ** Data model

    The instance attributes of each class, as its [__init__] sets them. *)

(** [ParamUV.__init__] stores its two arguments; it performs no check. *)
Record ParamUV : Type := mkParamUV { _u : Real; _v : Real }.

(** [Interval.__init__] sets [_start], [_end] and the public flag
    [not_empty]. *)
Record Interval : Type := mkInterval {
  _start : Real;
  _end : Real;
  not_empty : bool
}.

(** Modelled from the spec: the 3-D math library
    [ansys.geometry.core.math] is not among the sources.  The design
    document (section 6) describes it as a point / vector / unit-vector
    library with the standard Euclidean operations.  A point and a
    vector are triples of numbers; a unit vector is a triple of real
    (finite) coordinates. *)
Record Point3D : Type := mkPoint3D { px : Real; py : Real; pz : Real }.
Record Vector3D : Type := mkVector3D { vx : Real; vy : Real; vz : Real }.
Record UnitVector3D : Type := mkUnitVector3D { ux : Q; uy : Q; uz : Q }.

(** [Plane.__init__] sets [_origin], [_reference] and [_axis]. *)
Record Plane : Type := mkPlane {
  _origin : Point3D;
  _reference : UnitVector3D;
  _axis : UnitVector3D
}.

(** [PlaneEvaluation.__init__] stores the plane and the parameter. *)
Record PlaneEvaluation : Type := mkPlaneEvaluation {
  _plane : Plane;
  _parameter : ParamUV
}.

(** Python objects, where the class of an object is inspected at run
    time.  [PySeq] stands for a NumPy array or a sequence of numbers,
    [PyMethod] for a method bound to its instance. *)
Inductive pyval : Type :=
| PyNone
| PyNotImplemented
| PyBool (b : bool)
| PyNum (r : Real)
| PyStr (s : string)
| PySeq (l : list Real)
| PyMethod (name : string)
| PyParamUV (p : ParamUV)
| PyInterval (i : Interval)
| PyPoint3D (p : Point3D)
| PyVector3D (v : Vector3D)
| PyUnitVector3D (u : UnitVector3D)
| PyPlane (p : Plane).

Inductive pyclass : Type :=
| cls_NoneType | cls_NotImplementedType | cls_bool | cls_float | cls_str
| cls_ndarray | cls_method | cls_ParamUV | cls_Interval | cls_Point3D
| cls_Vector3D | cls_UnitVector3D | cls_Plane.

#[global] Instance pyclass_eq_dec : EqDecision pyclass.
Proof. solve_decision. Defined.

Definition type (v : pyval) : pyclass :=
  match v with
  | PyNone => cls_NoneType
  | PyNotImplemented => cls_NotImplementedType
  | PyBool _ => cls_bool
  | PyNum _ => cls_float
  | PyStr _ => cls_str
  | PySeq _ => cls_ndarray
  | PyMethod _ => cls_method
  | PyParamUV _ => cls_ParamUV
  | PyInterval _ => cls_Interval
  | PyPoint3D _ => cls_Point3D
  | PyVector3D _ => cls_Vector3D
  | PyUnitVector3D _ => cls_UnitVector3D
  | PyPlane _ => cls_Plane
  end.

(** [issubclass]: in the math library [UnitVector3D] derives from
    [Vector3D]; both and [Point3D] derive from [numpy.ndarray]. *)
Definition issubclass (c d : pyclass) : bool :=
  bool_decide (c = d)
  || match c, d with
     | cls_UnitVector3D, cls_Vector3D
     | (cls_UnitVector3D | cls_Vector3D | cls_Point3D), cls_ndarray => true
     | _, _ => false
     end.

Definition isinstance (v : pyval) (c : pyclass) : bool := issubclass (type v) c.

(** The decorator [check_input_types] (beartype's [beartype]) on a
    method with one annotated parameter: the call goes through when the
    argument is an instance of the annotated class, and raises
    beartype's parameter violation otherwise. *)
Definition check_input_types {A : Type}
    (param : string) (c : pyclass) (f : pyval -> result A) (arg : pyval) : result A :=
  if isinstance arg c then f arg
  else Raise (BeartypeCallHintParamViolation param).

(** ** Class [ParamUV] *)

Definition ParamUV_u (self : ParamUV) : Real := _u self.
Definition ParamUV_v (self : ParamUV) : Real := _v self.

(** The undecorated bodies.  Behind the decorator [other] is a
    [ParamUV]; reading [_u] on anything else is an attribute error.
    The components are combined as exact numbers here; the operators
    on [int], [float] and NumPy components are [Py.ParamUV___add__]
    and its companions below. *)
Definition ParamUV_components (other : pyval) : result (Real * Real) :=
  match other with
  | PyParamUV o => Ok (_u o, _v o)
  | _ => Raise (AttributeError "_u")
  end.

Definition ParamUV___add__ (self : ParamUV) : pyval -> result ParamUV :=
  check_input_types "other" cls_ParamUV (fun other =>
    o ← ParamUV_components other;
    Ok (mkParamUV (Num.add (_u self) o.1) (Num.add (_v self) o.2))).

Definition ParamUV___sub__ (self : ParamUV) : pyval -> result ParamUV :=
  check_input_types "other" cls_ParamUV (fun other =>
    o ← ParamUV_components other;
    Ok (mkParamUV (Num.sub (_u self) o.1) (Num.sub (_v self) o.2))).

Definition ParamUV___mul__ (self : ParamUV) : pyval -> result ParamUV :=
  check_input_types "other" cls_ParamUV (fun other =>
    o ← ParamUV_components other;
    Ok (mkParamUV (Num.mul (_u self) o.1) (Num.mul (_v self) o.2))).

Definition ParamUV___truediv__ (self : ParamUV) : pyval -> result ParamUV :=
  check_input_types "other" cls_ParamUV (fun other =>
    o ← ParamUV_components other;
    u ← Num.div (_u self) o.1;
    v ← Num.div (_v self) o.2;
    Ok (mkParamUV u v)).

Definition ParamUV___iter__ (self : ParamUV) : list Real :=
  [ParamUV_u self; ParamUV_v self].

(** ** Class [Accuracy]

    [ansys.geometry.core.misc.accuracy] is not among the sources; the
    three members that [Interval] uses are parameters of the
    development. *)
Class Accuracy : Type := {
  length_accuracy : Real;
  equal_doubles : Real -> Real -> bool;
  compare_with_tolerance : Real -> Real -> Real -> Real -> bool
}.

(** ** Class [Interval] *)

Definition Interval___init__ (start end_ : Real) : result Interval :=
  if Num.ltb end_ start
  then Raise (ValueError "Start value must be less than end value")
  else Ok (mkInterval start end_ true).

Definition Interval_start (self : Interval) : Real := _start self.
Definition Interval_end (self : Interval) : Real := _end self.

Definition Interval_is_open (self : Interval) : bool :=
  Num.isneginf (Interval_start self) && Num.isinf (Interval_end self).

Definition Interval_is_closed (self : Interval) : bool :=
  Num.gtb (Interval_start self) NInf && Num.ltb (Interval_end self) PInf.

Definition Interval_is_empty (self : Interval) : bool := negb (not_empty self).

Definition Interval_get_span (self : Interval) : result Real :=
  if negb (Interval_is_closed self)
  then Raise (ValueError "Interval must be closed to get the span.")
  else Ok (Num.sub (Interval_end self) (Interval_start self)).

Definition Interval_get_relative_val (self : Interval) (t : Real) : result Real :=
  span ← Interval_get_span self;
  Ok (Num.add (Interval_start self) (Num.mul t span)).

(** The names that the class body and [__init__] bind on an instance
    (the dunder names inherited from [object] are left out). *)
Definition Interval_methods : list string :=
  ["__init__"; "__eq__"; "is_open"; "is_closed"; "is_empty"; "get_span";
   "get_relative_val"; "is_negative"; "unite"; "intersect"; "contains";
   "inflate"; "__repr__"]%string.

(** Attribute read [self.name]. *)
Definition Interval_getattr (self : Interval) (name : string) : result pyval :=
  if bool_decide (name ∈ ["start"; "_start"]%string) then Ok (PyNum (_start self))
  else if bool_decide (name ∈ ["end"; "_end"]%string) then Ok (PyNum (_end self))
  else if bool_decide (name = "not_empty"%string) then Ok (PyBool (not_empty self))
  else if bool_decide (name ∈ Interval_methods) then Ok (PyMethod name)
  else Raise (AttributeError ("'Interval' object has no attribute '" +:+ name +:+ "'")).

(** An object used as an operand of [<] against a number, as the
    built-in [min] and [max] do. *)
Definition as_number (v : pyval) : result Real :=
  match v with
  | PyNum r => Ok r
  | PyBool b => Ok (Fin (if b then 1 else 0))
  | _ => Raise (TypeError "'<' not supported between instances")
  end.

(** A method of [Interval] that takes numbers and answers with a
    boolean, as a [def] of the class body: the number of parameters
    after [self], and the body.  A body either finishes or returns the
    value of a call [self.name(args)], which Python resolves in the
    class namespace when the body runs. *)
Inductive outcome : Type :=
| Done (r : result bool)
| ReturnSelfCall (name : string) (args : list Real).

Record method : Type := Def {
  params : nat;
  body : Interval -> list Real -> outcome
}.

(** Executing a class body binds each [def] to its name, in source
    order; a later binding of a name replaces the earlier one. *)
Definition class_namespace (defs : list (string * method)) : gmap string method :=
  foldl (fun ns d => <[d.1 := d.2]> ns) ∅ defs.

(** The call [self.name(args)].  [fuel] bounds the chain of nested
    calls; [None] means that the bound was reached. *)
Fixpoint invoke (fuel : nat) (ns : gmap string method)
    (name : string) (self : Interval) (args : list Real) : option (result bool) :=
  match fuel with
  | O => None
  | S fuel' =>
      match ns !! name with
      | None => Some (Raise (AttributeError name))
      | Some m =>
          if bool_decide (length args = params m) then
            match body m self args with
            | Done r => Some r
            | ReturnSelfCall name' args' => invoke fuel' ns name' self args'
            end
          else Some (Raise (TypeError (name +:+ "() takes a different number of positional arguments")))
      end
  end.

Section IntervalClass.
Context `{Accuracy}.

Definition Interval___eq__ (self : Interval) (other : pyval) : pyval :=
  match other with
  | PyInterval other =>
      if Interval_is_empty self || Interval_is_empty other
      then PyBool (Interval_is_empty self && Interval_is_empty other)
      else PyBool (equal_doubles (Interval_start self) (Interval_start other)
                   && equal_doubles (Interval_end self) (Interval_end other))
  | _ => PyNotImplemented
  end.

Definition Interval_is_negative (self : Interval) (tolerance : Real) : result bool :=
  span ← Interval_get_span self;
  Ok (compare_with_tolerance span (Fin 0) tolerance tolerance).


(** [None] is Python's [None], which the source returns where the
    result is "supposed to be empty".  The second argument of [min] is
    the attribute read [second.send], as written in the source. *)
Definition Interval_intersect (first second : Interval) (tolerance : Real)
    : result (option Interval) :=
  if Interval_is_empty first || Interval_is_empty second then Ok None
  else
    let lo := Num.max (Interval_start first) (Interval_start second) in
    send ← Interval_getattr second "send" ≫= as_number;
    intersection ← Interval___init__ lo (Num.min (Interval_end first) send);
    negative ← Interval_is_negative intersection tolerance;
    if negb negative then Ok (Some intersection) else Ok None.

(** The first [def contains(self, t, accuracy)]. *)
Definition Interval_contains_accuracy (self : Interval) (t accuracy : Real) : bool :=
  if Interval_is_empty self then false
  else
    let negative_abs_accuracy := Num.neg (Num.abs accuracy) in
    if Num.gtb (Interval_start self) (Interval_end self) then
      if Num.ltb (Num.sub (Interval_start self) t) negative_abs_accuracy then false
      else if Num.ltb (Num.sub t (Interval_end self)) negative_abs_accuracy then false
      else true
    else
      if Num.ltb (Num.sub t (Interval_start self)) negative_abs_accuracy then false
      else if Num.ltb (Num.sub (Interval_end self) t) negative_abs_accuracy then false
      else true.

Definition def_contains_accuracy : method :=
  Def 2 (fun self args =>
    match args with
    | [t; accuracy] => Done (Ok (Interval_contains_accuracy self t accuracy))
    | _ => Done (Raise (TypeError "contains"))
    end).

(** The second [def contains(self, t)], whose body is
    [return self.contains(t, Accuracy.length_accuracy)]. *)
Definition def_contains : method :=
  Def 1 (fun self args =>
    match args with
    | [t] => ReturnSelfCall "contains" [t; length_accuracy]
    | _ => Done (Raise (TypeError "contains"))
    end).

Definition def_of_flag (f : Interval -> bool) : method :=
  Def 0 (fun self _ => Done (Ok (f self))).

Definition def_is_negative : method :=
  Def 1 (fun self args =>
    match args with
    | [tolerance] => Done (Interval_is_negative self tolerance)
    | _ => Done (Raise (TypeError "is_negative"))
    end).

(** The boolean methods of the class body of [Interval], in source
    order. *)
Definition Interval_class_body : list (string * method) :=
  [("is_open", def_of_flag Interval_is_open);
   ("is_closed", def_of_flag Interval_is_closed);
   ("is_empty", def_of_flag Interval_is_empty);
   ("is_negative", def_is_negative);
   ("contains", def_contains_accuracy);
   ("contains", def_contains)]%string.

Definition Interval_namespace : gmap string method :=
  class_namespace Interval_class_body.

(** The call [self.contains(args)] on an instance. *)
Definition Interval_contains (fuel : nat) (self : Interval) (args : list Real)
    : option (result bool) :=
  invoke fuel Interval_namespace "contains" self args.

(** [inflate] computes two new bounds; it is embedded with the
    arithmetic of the interpreter, as [Py.Interval_inflate] below. *)

End IntervalClass.

(** ** Enumerations and class [Parameterization] *)

Inductive ParamForm : Type := OPEN | CLOSED | PERIODIC | OTHER.
Inductive ParamType : Type := LINEAR | CIRCULAR | OTHER_TYPE.

Record Parameterization : Type := mkParameterization {
  _form : ParamForm;
  _type : ParamType;
  _interval : Interval
}.

(** ** The 3-D math library

    The operations of [ansys.geometry.core.math] that [plane.py]
    applies to points and vectors.  The library is not among the
    sources; the design document (section 6) gives its operations
    their standard Euclidean meaning. *)

(** Modelled from the spec: the constants [UNITVECTOR3D_X] and
    [UNITVECTOR3D_Z] of the math library, the unit vectors of the x
    and z axes (design document, section 4.7: [reference=+X],
    [axis=+Z]). *)
Definition UNITVECTOR3D_X : UnitVector3D := mkUnitVector3D 1 0 0.
Definition UNITVECTOR3D_Z : UnitVector3D := mkUnitVector3D 0 0 1.

(** Modelled from the spec: [a.cross(b)] of the math library, the
    cross product. *)
Definition cross (a b : UnitVector3D) : UnitVector3D :=
  mkUnitVector3D (uy a * uz b - uz a * uy b)
                 (uz a * ux b - ux a * uz b)
                 (ux a * uy b - uy a * ux b).

(** Modelled from the spec: a unit vector of the math library used
    where a vector is expected ([UnitVector3D] derives from
    [Vector3D]). *)
Definition as_vector (d : UnitVector3D) : Vector3D :=
  mkVector3D (Fin (ux d)) (Fin (uy d)) (Fin (uz d)).

(** Modelled from the spec: [k * d] of the math library, a number
    times a unit vector. *)
Definition scale (k : Real) (d : UnitVector3D) : Vector3D :=
  mkVector3D (Num.mul k (Fin (ux d))) (Num.mul k (Fin (uy d))) (Num.mul k (Fin (uz d))).

(** Modelled from the spec: [p + w] of the math library, a point
    translated by a vector. *)
Definition Point3D_add (p : Point3D) (w : Vector3D) : Point3D :=
  mkPoint3D (Num.add (px p) (vx w)) (Num.add (py p) (vy w)) (Num.add (pz p) (vz w)).

(** Modelled from the spec: [p - q] of the math library, the vector
    from [q] to [p]. *)
Definition Point3D_sub (p q : Point3D) : Vector3D :=
  mkVector3D (Num.sub (px p) (px q)) (Num.sub (py p) (py q)) (Num.sub (pz p) (pz q)).

(** Modelled from the spec: [w.dot(d)] of the math library, the dot
    product. *)
Definition dot (w : Vector3D) (d : UnitVector3D) : Real :=
  Num.add (Num.add (Num.mul (vx w) (Fin (ux d))) (Num.mul (vy w) (Fin (uy d))))
          (Num.mul (vz w) (Fin (uz d))).

(** Two points with the same coordinates. *)
Definition Point3D_same (p q : Point3D) : Prop :=
  px p ≈ px q /\ py p ≈ py q /\ pz p ≈ pz q.

(** The members of the math library whose definition the design
    document leaves open (conversion of an array to a point or to a
    normalised vector, and the tolerance-based tests) are parameters. *)
Class Math3D : Type := {
  Point3D___init__ : pyval -> result Point3D;
  UnitVector3D___init__ : pyval -> result UnitVector3D;
  is_perpendicular_to : UnitVector3D -> UnitVector3D -> bool;
  Point3D___eq__ : Point3D -> Point3D -> bool;
  UnitVector3D___eq__ : UnitVector3D -> UnitVector3D -> bool
}.

(** ** Class [Plane] *)

Section PlaneClass.
Context `{Math3D}.

(** [reference] and [axis] are optional; [None] selects the default
    value of the parameter. *)
Definition Plane___init__ (origin : pyval) (reference axis : option pyval)
    : result Plane :=
  let reference := default (PyUnitVector3D UNITVECTOR3D_X) reference in
  let axis := default (PyUnitVector3D UNITVECTOR3D_Z) axis in
  o ← match origin with
      | PyPoint3D p => Ok p
      | _ => Point3D___init__ origin
      end;
  r ← match reference with
      | PyUnitVector3D u => Ok u
      | _ => UnitVector3D___init__ reference
      end;
  a ← match axis with
      | PyUnitVector3D u => Ok u
      | _ => UnitVector3D___init__ axis
      end;
  if negb (is_perpendicular_to r a)
  then Raise (ValueError "Plane reference (dir_x) and axis (dir_z) must be perpendicular.")
  else Ok (mkPlane o r a).

Definition Plane_origin (self : Plane) : Point3D := _origin self.
Definition Plane_dir_x (self : Plane) : UnitVector3D := _reference self.
Definition Plane_dir_z (self : Plane) : UnitVector3D := _axis self.
Definition Plane_dir_y (self : Plane) : UnitVector3D :=
  cross (Plane_dir_z self) (Plane_dir_x self).

Definition Plane___eq__ (self : Plane) : pyval -> result bool :=
  check_input_types "other" cls_Plane (fun other =>
    match other with
    | PyPlane other =>
        Ok (Point3D___eq__ (_origin self) (_origin other)
            && UnitVector3D___eq__ (_reference self) (_reference other)
            && UnitVector3D___eq__ (_axis self) (_axis other))
    | _ => Raise (AttributeError "_origin")
    end).

Definition Plane_contains_param (self : Plane) (param_uv : pyval) : result bool :=
  Raise (NotImplementedError "contains_param() is not implemented.").

Definition Plane_contains_point (self : Plane) (point : pyval) : result bool :=
  Raise (NotImplementedError "contains_point() is not implemented.").

Definition Plane_parameterization (self : Plane)
    : result (Parameterization * Parameterization) :=
  iu ← Interval___init__ NInf PInf;
  let u := mkParameterization OPEN LINEAR iu in
  iv ← Interval___init__ NInf PInf;
  let v := mkParameterization OPEN LINEAR iv in
  Ok (u, v).

Definition Plane_evaluate (self : Plane) (parameter : ParamUV) : PlaneEvaluation :=
  mkPlaneEvaluation self parameter.

(** [transformed_copy] applies a [Matrix44] of the math library to
    the three attributes and calls the constructor; matrices are not
    part of this development. *)

Definition Plane_project_point (self : Plane) (point : Point3D) : PlaneEvaluation :=
  let origin_to_point := Point3D_sub point (_origin self) in
  let u := dot origin_to_point (Plane_dir_x self) in
  let v := dot origin_to_point (Plane_dir_y self) in
  mkPlaneEvaluation self (mkParamUV u v).

(** ** Class [PlaneEvaluation]

    Each property is a [cached_property]: its body runs at the first
    read and the value is kept; the value of a read is the value of
    the body. *)

Definition PlaneEvaluation_plane (self : PlaneEvaluation) : Plane := _plane self.
Definition PlaneEvaluation_parameter (self : PlaneEvaluation) : ParamUV := _parameter self.

Definition PlaneEvaluation_position (self : PlaneEvaluation) : Point3D :=
  Point3D_add
    (Point3D_add (Plane_origin (PlaneEvaluation_plane self))
                 (scale (ParamUV_u (PlaneEvaluation_parameter self))
                        (Plane_dir_x (PlaneEvaluation_plane self))))
    (scale (ParamUV_v (PlaneEvaluation_parameter self))
           (Plane_dir_y (PlaneEvaluation_plane self))).

Definition PlaneEvaluation_normal (self : PlaneEvaluation) : UnitVector3D :=
  Plane_dir_z (PlaneEvaluation_plane self).

Definition PlaneEvaluation_u_derivative (self : PlaneEvaluation) : UnitVector3D :=
  Plane_dir_z (PlaneEvaluation_plane self).

Definition PlaneEvaluation_v_derivative (self : PlaneEvaluation) : UnitVector3D :=
  Plane_dir_y (PlaneEvaluation_plane self).

Definition PlaneEvaluation_uu_derivative (self : PlaneEvaluation) : Vector3D :=
  mkVector3D (Fin 0) (Fin 0) (Fin 0).
Definition PlaneEvaluation_uv_derivative (self : PlaneEvaluation) : Vector3D :=
  mkVector3D (Fin 0) (Fin 0) (Fin 0).
Definition PlaneEvaluation_vv_derivative (self : PlaneEvaluation) : Vector3D :=
  mkVector3D (Fin 0) (Fin 0) (Fin 0).

Definition PlaneEvaluation_min_curvature (self : PlaneEvaluation) : Real := Fin 0.
Definition PlaneEvaluation_min_curvature_direction (self : PlaneEvaluation) : UnitVector3D :=
  Plane_dir_x (PlaneEvaluation_plane self).
Definition PlaneEvaluation_max_curvature (self : PlaneEvaluation) : Real := Fin 0.
Definition PlaneEvaluation_max_curvature_direction (self : PlaneEvaluation) : UnitVector3D :=
  Plane_dir_y (PlaneEvaluation_plane self).

End PlaneClass.

(** ** Reference instances of the two interfaces

    Used to run the model on concrete inputs. *)

(** Modelled from the spec: [equal_doubles(a, b)] is true iff [|a-b|]
    is below a fixed epsilon, [length_accuracy] is the default spatial
    tolerance (design document, section 4.1); [compare_with_tolerance]
    tests that the value is not above the target by more than the
    tolerance. *)
#[local] Instance reference_Accuracy : Accuracy := {|
  length_accuracy := Fin (1 # 100000000);
  equal_doubles a b :=
    Num.ltb (Num.abs (Num.sub a b)) (Fin (1 # 1000000000000));
  compare_with_tolerance value target low_tol high_tol :=
    negb (Num.ltb (Num.add target high_tol) value)
|}.

(** The square root of a rational that is the square of a rational. *)
Definition exact_sqrt (q : Q) : option Q :=
  let r := Qred q in
  let n := Z.sqrt (Qnum r) in
  let d := Z.sqrt (Zpos (Qden r)) in
  if ((n * n =? Qnum r) && (d * d =? Zpos (Qden r)) && (0 <? d))%Z
  then Some (n # Z.to_pos d) else None.

(** An instance of the math interface on rational data: an array of
    three numbers converts to a point; an array of three finite numbers
    whose norm is rational and not zero converts to the normalised
    vector; the tests are exact. *)
#[local] Instance reference_Math3D : Math3D := {|
  Point3D___init__ v :=
    match v with
    | PySeq [x; y; z] => Ok (mkPoint3D x y z)
    | _ => Raise (ValueError "Point3D class must receive 3 arguments.")
    end;
  UnitVector3D___init__ v :=
    match v with
    | PySeq [Fin x; Fin y; Fin z] =>
        match exact_sqrt (x * x + y * y + z * z) with
        | Some n =>
            if Qeq_bool n 0 then Raise (ValueError "The norm of the Vector3D is not valid.")
            else Ok (mkUnitVector3D (Qred (x / n)) (Qred (y / n)) (Qred (z / n)))
        | None => Raise (ValueError "norm is not rational")
        end
    | _ => Raise (ValueError "Vector3D class must receive 3 arguments.")
    end;
  is_perpendicular_to a b :=
    Qeq_bool (ux a * ux b + uy a * uy b + uz a * uz b) 0;
  Point3D___eq__ p q :=
    Num.eqb (px p) (px q) && Num.eqb (py p) (py q) && Num.eqb (pz p) (pz q);
  UnitVector3D___eq__ a b :=
    Qeq_bool (ux a) (ux b) && Qeq_bool (uy a) (uy b) && Qeq_bool (uz a) (uz b)
|}.

(** ** Class [Admin] ([connection/admin.py])

    The methods of [Admin] act on the file system and on the remote
    service.  A method is a tree of calls: each call to the operating
    system, to a file object or to the gRPC stub is a node, and the
    method continues with the value that the call returns.  What a
    call returns, and whether it raises, is decided by a handler when
    the tree is run.  The methods read [self] only to reach the stub
    [self._admin], so they take no instance here. *)

Inductive PeriodType : Type := CURRENT | ALL.
Inductive LogsTarget : Type := CLIENT.

(** [LogsRequest(period_type=..., target=..., null_path=None,
    null_period=None)]. *)
Record LogsRequest : Type := mkLogsRequest {
  period_type : PeriodType;
  target : LogsTarget;
  null_path : option string;
  null_period : option string
}.

Record LogsResponse : Type := mkLogsResponse {
  log_name : string;
  relative_path : string;
  log_chunk : list Byte.byte
}.

(** An open file object. *)
Definition file : Type := nat.

Inductive call : Type -> Type :=
| os_path_isdir (path : string) : call bool
| os_mkdir (path : string) : call unit
| os_makedirs (path : string) : call unit
| open_wb (path : string) : call file
| file_write (f : file) (data : list Byte.byte) : call unit
| file_close (f : file) : call unit
| AdminStub_GetLogs (request : LogsRequest) : call (list LogsResponse).

Inductive prog (A : Type) : Type :=
| Return (a : A)
| Throw (e : exn)
| Call {B : Type} (c : call B) (k : B -> prog A).
Arguments Return {A} a.
Arguments Throw {A} e.
Arguments Call {A B} c k.

Fixpoint prog_bind {A B : Type} (k : A -> prog B) (p : prog A) : prog B :=
  match p with
  | Return a => k a
  | Throw e => Throw e
  | Call c k' => Call c (fun b => prog_bind k (k' b))
  end.

#[global] Instance prog_ret : MRet prog := fun A a => Return a.
#[global] Instance prog_mbind : MBind prog := fun A B k p => prog_bind k p.

(** One call, continued with its value. *)
Definition perform {B : Type} (c : call B) : prog B := Call c Return.

(** A call that was made, whatever it returned. *)
Inductive event : Type :=
| Event {B : Type} (c : call B).

(** A handler answers a call in a state of the world (the file system
    and the server): it returns a value or raises, and leaves a new
    state. *)
Definition handler (W : Type) : Type := forall B : Type, call B -> W -> result B * W.

(** Running a tree: the result, the final state, and the calls that
    were made, in order.  A call that raises ends the run. *)
Fixpoint run {W A : Type} (h : handler W) (p : prog A) (w : W)
    : result A * W * list event :=
  match p with
  | Return a => (Ok a, w, [])
  | Throw e => (Raise e, w, [])
  | Call c k =>
      match h _ c w with
      | (Ok b, w') =>
          let '(r, w'', calls) := run h (k b) w' in (r, w'', Event c :: calls)
      | (Raise e, w') => (Raise e, w', [Event c])
      end
  end.

(** The argument of [Admin.__init__]: [None], a [grpc.Channel], or an
    object of another class. *)
Inductive channel_argument : Type :=
| NoChannel
| GrpcChannel (target_address : string)
| NotAChannel.

(** The attributes [_grpc_channel] and [_admin]; the stub is made of
    the channel. *)
Record Admin : Type := mkAdmin { _grpc_channel : string }.

Definition Admin___init__ (grpc_channel : channel_argument) : result Admin :=
  match grpc_channel with
  | GrpcChannel c => Ok (mkAdmin c)
  | _ => Raise (Exception "Invalid gRPC channel.")
  end.

(** The loop [for response in response_iterator: result.append(response)]. *)
Definition collect_responses (response_iterator : list LogsResponse) : list LogsResponse :=
  foldl (fun result response => result ++ [response]) [] response_iterator.

Definition Admin_get_current_log : prog (list LogsResponse) :=
  let request := mkLogsRequest CURRENT CLIENT None None in
  response_iterator ← perform (AdminStub_GetLogs request);
  Return (collect_responses response_iterator).

Definition Admin_get_all_logs : prog (list LogsResponse) :=
  let request := mkLogsRequest ALL CLIENT None None in
  response_iterator ← perform (AdminStub_GetLogs request);
  Return (collect_responses response_iterator).

Definition Admin_check_and_make_output_folder (output_folder : string) : prog unit :=
  isdir ← perform (os_path_isdir output_folder);
  if negb isdir then perform (os_mkdir output_folder) else Return tt.

Section AdminClass.
(** [os.path.join] on two strings. *)
Variable os_path_join : string -> string -> string.

(** The path of the file that [write_output_logs] writes for a log. *)
Definition log_folder (output_folder : string) (log : LogsResponse) : string :=
  output_folder +:+ relative_path log.
Definition log_complete_path (output_folder : string) (log : LogsResponse) : string :=
  os_path_join (log_folder output_folder log) (log_name log).

(** The body of the loop of [write_output_logs]. *)
Definition write_output_log (output_folder : string) (log : LogsResponse) : prog unit :=
  let folder := output_folder in
  let folder := folder +:+ relative_path log in
  isdir ← perform (os_path_isdir folder);
  _ ← (if negb isdir then perform (os_makedirs folder) else Return tt);
  let complete_path := os_path_join folder (log_name log) in
  f ← perform (open_wb complete_path);
  _ ← perform (file_write f (log_chunk log));
  perform (file_close f).

Fixpoint for_each_log (output_folder : string) (logs : list LogsResponse) : prog unit :=
  match logs with
  | [] => Return tt
  | log :: logs' =>
      _ ← write_output_log output_folder log;
      for_each_log output_folder logs'
  end.

(** [logs] is [None] or a list. *)
Definition Admin_write_output_logs (output_folder : string)
    (logs : option (list LogsResponse)) : prog unit :=
  match logs with
  | Some logs => if (0 <? length logs)%nat then for_each_log output_folder logs else Return tt
  | None => Return tt
  end.

Definition Admin_export_current_log (output_folder : string) : prog (list LogsResponse) :=
  _ ← Admin_check_and_make_output_folder output_folder;
  result ← Admin_get_current_log;
  _ ← Admin_write_output_logs output_folder (Some result);
  Return result.

Definition Admin_export_all_logs (output_folder : string) : prog (list LogsResponse) :=
  _ ← Admin_check_and_make_output_folder output_folder;
  result ← Admin_get_all_logs;
  _ ← Admin_write_output_logs output_folder (Some result);
  Return result.

End AdminClass.

(** The paths opened for writing, the data written, the directories
    made by [os.makedirs] and by [os.mkdir], the files closed and the
    requests sent, among the calls of a run. *)
Definition opened_path (e : event) : option string :=
  match e with
  | Event c => match c with open_wb path => Some path | _ => None end
  end.
Definition written_data (e : event) : option (list Byte.byte) :=
  match e with
  | Event c => match c with file_write _ data => Some data | _ => None end
  end.
Definition made_folder (e : event) : option string :=
  match e with
  | Event c => match c with os_makedirs path | os_mkdir path => Some path | _ => None end
  end.
Definition closed_file (e : event) : option file :=
  match e with
  | Event c => match c with file_close f => Some f | _ => None end
  end.
Definition sent_request (e : event) : option LogsRequest :=
  match e with
  | Event c => match c with AdminStub_GetLogs request => Some request | _ => None end
  end.

Definition checked_folder (e : event) : option string :=
  match e with
  | Event c => match c with os_path_isdir path => Some path | _ => None end
  end.

(** The last call of a run is a [write] on a file. *)
Definition raised_in_write (calls : list event) : bool :=
  match last calls with
  | Some e => bool_decide (is_Some (written_data e))
  | None => false
  end.

(** One passage of the loop of [write_output_logs] in which no call
    raises, as the answers of the system describe it: the folder of the
    log is tested and made when it is missing, the file at
    [join(output_folder + relative_path, log_name)] is opened, and the
    chunk of the log is written to, and then [close] is called on, the
    file object [f] that this [open] returned.  The relation holds
    between the state before, the calls made and the state after. *)
Inductive log_written {W : Type} (h : handler W) (join : string -> string -> string)
    (output_folder : string) (log : LogsResponse) : W -> list event -> W -> Prop :=
| log_written_folder_exists (w w1 w2 w3 w4 : W) (f : file) :
    h _ (os_path_isdir (log_folder output_folder log)) w = (Ok true, w1) ->
    h _ (open_wb (log_complete_path join output_folder log)) w1 = (Ok f, w2) ->
    h _ (file_write f (log_chunk log)) w2 = (Ok tt, w3) ->
    h _ (file_close f) w3 = (Ok tt, w4) ->
    log_written h join output_folder log w
      [Event (os_path_isdir (log_folder output_folder log));
       Event (open_wb (log_complete_path join output_folder log));
       Event (file_write f (log_chunk log));
       Event (file_close f)] w4
| log_written_folder_made (w w0 w1 w2 w3 w4 : W) (f : file) :
    h _ (os_path_isdir (log_folder output_folder log)) w = (Ok false, w0) ->
    h _ (os_makedirs (log_folder output_folder log)) w0 = (Ok tt, w1) ->
    h _ (open_wb (log_complete_path join output_folder log)) w1 = (Ok f, w2) ->
    h _ (file_write f (log_chunk log)) w2 = (Ok tt, w3) ->
    h _ (file_close f) w3 = (Ok tt, w4) ->
    log_written h join output_folder log w
      [Event (os_path_isdir (log_folder output_folder log));
       Event (os_makedirs (log_folder output_folder log));
       Event (open_wb (log_complete_path join output_folder log));
       Event (file_write f (log_chunk log));
       Event (file_close f)] w4.

(** The passages for the logs of a list, one after the other. *)
Inductive logs_written {W : Type} (h : handler W) (join : string -> string -> string)
    (output_folder : string) : list LogsResponse -> W -> list event -> W -> Prop :=
| logs_written_nil (w : W) : logs_written h join output_folder [] w [] w
| logs_written_cons (log : LogsResponse) (logs : list LogsResponse)
    (w w1 w2 : W) (calls1 calls2 : list event) :
    log_written h join output_folder log w calls1 w1 ->
    logs_written h join output_folder logs w1 calls2 w2 ->
    logs_written h join output_folder (log :: logs) w (calls1 ++ calls2) w2.

(** A world for running the methods on concrete data: the directories
    and the files of a file system, the files that are open, and the
    logs that the server holds.  [os.mkdir] raises on an existing
    directory. *)
Record test_world : Type := mkTestWorld {
  directories : list string;
  files : list (string * list Byte.byte);
  open_files : list string;
  server_logs : list LogsResponse
}.

Definition test_handler : handler test_world := fun B c w =>
  match c in call T return result T * test_world with
  | os_path_isdir path => (Ok (bool_decide (path ∈ directories w)), w)
  | os_mkdir path =>
      if bool_decide (path ∈ directories w)
      then (Raise (Exception "FileExistsError"), w)
      else (Ok tt, mkTestWorld (path :: directories w) (files w) (open_files w) (server_logs w))
  | os_makedirs path =>
      (Ok tt, mkTestWorld (path :: directories w) (files w) (open_files w) (server_logs w))
  | open_wb path =>
      (Ok (length (open_files w)),
       mkTestWorld (directories w) ((path, []) :: files w) (open_files w ++ [path])
                   (server_logs w))
  | file_write f data =>
      match open_files w !! f with
      | Some path =>
          (Ok tt, mkTestWorld (directories w) ((path, data) :: files w) (open_files w)
                              (server_logs w))
      | None => (Raise (ValueError "I/O operation on closed file."), w)
      end
  | file_close f => (Ok tt, w)
  | AdminStub_GetLogs request => (Ok (server_logs w), w)
  end.

(** A file system on which every directory exists and every [write]
    raises, and a server without logs. *)
Definition full_disk_handler : handler unit := fun B c w =>
  match c in call T return result T * unit with
  | os_path_isdir _ => (Ok true, w)
  | os_mkdir _ | os_makedirs _ | file_close _ => (Ok tt, w)
  | open_wb _ => (Ok 3%nat, w)
  | file_write _ _ => (Raise (Exception "No space left on device"), w)
  | AdminStub_GetLogs _ => (Ok [], w)
  end.

(** A file system without directories on which nothing can be
    created. *)
Definition read_only_handler : handler unit := fun B c w =>
  match c in call T return result T * unit with
  | os_path_isdir _ => (Ok false, w)
  | os_mkdir _ | os_makedirs _ => (Raise (Exception "Read-only file system"), w)
  | open_wb _ => (Raise (Exception "Read-only file system"), w)
  | file_write _ _ | file_close _ => (Ok tt, w)
  | AdminStub_GetLogs _ => (Ok [], w)
  end.

(** Two logs of a server, and a world that holds them. *)
Definition log_a : LogsResponse :=
  mkLogsResponse "Application.log" "/run1/Logs" [Byte.x41; Byte.x0a].
Definition log_b : LogsResponse :=
  mkLogsResponse "Geometry.log" "/run2/Logs" [Byte.x42].
Definition world_0 : test_world :=
  mkTestWorld ["out"; "out/run1/Logs"]%string [] [] [log_a; log_b].

(** [os.path.join] for the runs on concrete data: the two parts with a
    separator between them. *)
Definition test_join (folder name : string) : string := folder +:+ "/" +:+ name.

(** ** Numbers as the interpreter computes with them

    The operators of [ParamUV] and the method [Interval.inflate] hand
    their operands to Python's [+], [-], [*], [/] and [<], whose outcome
    depends on the class of the operands.  This part embeds them class
    by class:

    - [int]: an integer of any size; [+], [-], [*] are exact; [/] is
      the correctly rounded binary64 quotient, [ZeroDivisionError] on a
      zero divisor and [OverflowError] when the quotient is out of the
      range of binary64;
    - [float]: a binary64 value; [+], [-], [*] are the IEEE 754
      operations (round to nearest even, overflow to an infinity) and
      never raise; [/] raises [ZeroDivisionError] on a zero divisor;
    - an [int] meeting a [float] is converted first (round to nearest
      even), with [OverflowError] when it is out of range;
    - [<] between an [int] and a [float] compares the two values
      exactly;
    - a NumPy scalar: the operations in which one takes part are those
      of NumPy, which is not among the sources; they are the members of
      the interface [NumPy]. *)

Module Py.

Inductive operator : Type := Add | Sub | Mul | TrueDiv.

Inductive number (scalar : Type) : Type :=
| py_int (z : Z)
| py_float (x : float)
| np_scalar (s : scalar).
Arguments py_int {scalar} z.
Arguments py_float {scalar} x.
Arguments np_scalar {scalar} s.

(** NumPy, as far as the two classes use it: the scalars, a binary
    operator and [<] with at least one scalar operand. *)
Class NumPy : Type := {
  scalar : Type;
  np_operator : operator -> number scalar -> number scalar -> result (number scalar);
  np_lt : number scalar -> number scalar -> result bool
}.

(** [float(z)] for an [int]: the nearest binary64 value, ties to even. *)
Definition float_of_int (z : Z) : result float :=
  match binary_normalize prec emax z 0 false with
  | S754_infinity _ => Raise (OverflowError "int too large to convert to float")
  | x => Ok (SF2Prim x)
  end.

(** An [int] as a significand with exponent zero (not rounded). *)
Definition int_as_spec (z : Z) : spec_float :=
  match z with
  | Z0 => S754_zero false
  | Zpos m => S754_finite false m 0
  | Zneg m => S754_finite true m 0
  end.

(** [a / b] for two [int]: the exact quotient, rounded once. *)
Definition int_truediv (a b : Z) : result float :=
  if (b =? 0)%Z then Raise (ZeroDivisionError "division by zero")
  else match SFdiv prec emax (int_as_spec a) (int_as_spec b) with
       | S754_infinity _ =>
           Raise (OverflowError "integer division result too large for a float")
       | q => Ok (SF2Prim q)
       end.

Definition float_operator (o : operator) (x y : float) : result float :=
  match o with
  | Add => Ok (x + y)%float
  | Sub => Ok (x - y)%float
  | Mul => Ok (x * y)%float
  | TrueDiv =>
      if (y =? 0)%float then Raise (ZeroDivisionError "float division by zero")
      else Ok (x / y)%float
  end.

(** The integer [m * 2 ^ e] of a finite binary64 value is compared with
    an [int] without rounding either side. *)
Definition int_lt_float (z : Z) (x : float) : bool :=
  match Prim2SF x with
  | S754_nan => false
  | S754_infinity s => negb s
  | S754_zero _ => (z <? 0)%Z
  | S754_finite s m e =>
      let v := if s then Zneg m else Zpos m in
      if (0 <=? e)%Z then (z <? v * 2 ^ e)%Z else (z * 2 ^ (- e) <? v)%Z
  end.

Definition float_lt_int (x : float) (z : Z) : bool :=
  match Prim2SF x with
  | S754_nan => false
  | S754_infinity s => s
  | S754_zero _ => (0 <? z)%Z
  | S754_finite s m e =>
      let v := if s then Zneg m else Zpos m in
      if (0 <=? e)%Z then (v * 2 ^ e <? z)%Z else (v <? z * 2 ^ (- e))%Z
  end.

Section Classes.
Context `{NumPy}.

Definition num : Type := number scalar.

(** [a o b] for two numbers. *)
Definition number_operator (o : operator) (a b : num) : result num :=
  match a, b with
  | py_int x, py_int y =>
      match o with
      | Add => Ok (py_int (x + y))
      | Sub => Ok (py_int (x - y))
      | Mul => Ok (py_int (x * y))
      | TrueDiv => q ← int_truediv x y; Ok (py_float q)
      end
  | py_float x, py_float y => r ← float_operator o x y; Ok (py_float r)
  | py_int x, py_float y =>
      x' ← float_of_int x; r ← float_operator o x' y; Ok (py_float r)
  | py_float x, py_int y =>
      y' ← float_of_int y; r ← float_operator o x y'; Ok (py_float r)
  | _, _ => np_operator o a b
  end.

(** [a < b] for two numbers. *)
Definition number_lt (a b : num) : result bool :=
  match a, b with
  | py_int x, py_int y => Ok (x <? y)%Z
  | py_float x, py_float y => Ok (x <? y)%float
  | py_int x, py_float y => Ok (int_lt_float x y)
  | py_float x, py_int y => Ok (float_lt_int x y)
  | _, _ => np_lt a b
  end.

(** *** Class [ParamUV] *)

Record ParamUV : Type := mkParamUV { _u : num; _v : num }.

(** *** Class [Interval] *)

Record Interval : Type := mkInterval {
  _start : num;
  _end : num;
  not_empty : bool
}.

(** An argument of a decorated method, before the decorator has looked
    at its class. *)
Inductive object : Type :=
| obj_None
| obj_number (n : num)
| obj_ParamUV (p : ParamUV)
| obj_Interval (i : Interval).

(** The decorator [check_input_types] on a method whose parameter is
    annotated ["ParamUV"]. *)
Definition check_input_types {A : Type}
    (param : string) (f : ParamUV -> result A) (arg : object) : result A :=
  match arg with
  | obj_ParamUV p => f p
  | _ => Raise (BeartypeCallHintParamViolation param)
  end.

Definition ParamUV___add__ (self : ParamUV) : object -> result ParamUV :=
  check_input_types "other" (fun other =>
    u ← number_operator Add (_u self) (_u other);
    v ← number_operator Add (_v self) (_v other);
    Ok (mkParamUV u v)).

Definition ParamUV___sub__ (self : ParamUV) : object -> result ParamUV :=
  check_input_types "other" (fun other =>
    u ← number_operator Sub (_u self) (_u other);
    v ← number_operator Sub (_v self) (_v other);
    Ok (mkParamUV u v)).

Definition ParamUV___mul__ (self : ParamUV) : object -> result ParamUV :=
  check_input_types "other" (fun other =>
    u ← number_operator Mul (_u self) (_u other);
    v ← number_operator Mul (_v self) (_v other);
    Ok (mkParamUV u v)).

Definition ParamUV___truediv__ (self : ParamUV) : object -> result ParamUV :=
  check_input_types "other" (fun other =>
    u ← number_operator TrueDiv (_u self) (_u other);
    v ← number_operator TrueDiv (_v self) (_v other);
    Ok (mkParamUV u v)).

(** The method that Python calls for [self o other]. *)
Definition ParamUV_operator (o : operator) : ParamUV -> object -> result ParamUV :=
  match o with
  | Add => ParamUV___add__
  | Sub => ParamUV___sub__
  | Mul => ParamUV___mul__
  | TrueDiv => ParamUV___truediv__
  end.

(** The two arguments of [Interval.__init__] are numbers, so its
    decorator lets the call through. *)
Definition Interval___init__ (start end_ : num) : result Interval :=
  lt ← number_lt end_ start;
  if (lt : bool)
  then Raise (ValueError "Start value must be less than end value")
  else Ok (mkInterval start end_ true).

Definition Interval_start (self : Interval) : num := _start self.
Definition Interval_end (self : Interval) : num := _end self.

Definition Interval_is_empty (self : Interval) : bool := negb (not_empty self).

Definition Interval_inflate (self : Interval) (delta : num) : result Interval :=
  if Interval_is_empty self
  then Raise (Exception "Invalid Method On Empty Object ExceptionInterval")
  else
    s ← number_operator Sub (Interval_start self) delta;
    e ← number_operator Add (Interval_end self) delta;
    Interval___init__ s e.

End Classes.

End Py.

(** A reference instance of [Py.NumPy], for the runs on concrete
    objects: a scalar holds a binary64 value, an [int] or [float]
    operand is converted to one, and the operations are those of
    IEEE 754, which do not raise. *)
Definition float64_operand (a : Py.number float) : result float :=
  match a with
  | Py.py_int z => Py.float_of_int z
  | Py.py_float x => Ok x
  | Py.np_scalar x => Ok x
  end.

#[local] Instance float64_NumPy : Py.NumPy := {|
  Py.scalar := float;
  Py.np_operator o a b :=
    x ← float64_operand a;
    y ← float64_operand b;
    Ok (Py.np_scalar
          match o with
          | Py.Add => x + y
          | Py.Sub => x - y
          | Py.Mul => x * y
          | Py.TrueDiv => x / y
          end%float);
  Py.np_lt a b :=
    x ← float64_operand a;
    y ← float64_operand b;
    Ok (x <? y)%float
|}.

(** ** Auxiliary notions for the statements *)

(** The relation between the bounds that [Interval.__init__] checks. *)
Definition Interval_invariant (iv : Interval) : Prop :=
  Num.ltb (_end iv) (_start iv) = false.

(** The objects [Interval(0, 10)], [Interval(5, 15)], [Interval(0, 1)]
    and [Interval(-inf, -inf)]. *)
Definition Interval_0_10 : Interval := mkInterval (Fin 0) (Fin 10) true.
Definition Interval_5_15 : Interval := mkInterval (Fin 5) (Fin 15) true.
Definition Interval_ninf_ninf : Interval := mkInterval NInf NInf true.

(** An interval marked empty by clearing its flag [not_empty]. *)
Definition mark_empty (iv : Interval) : Interval :=
  mkInterval (_start iv) (_end iv) false.

(** The vector [u * a + v * b] in exact arithmetic, coordinate by
    coordinate. *)
Definition linear_combination (u v : Q) (a b : UnitVector3D) : Vector3D :=
  mkVector3D (Fin (u * ux a + v * ux b))
             (Fin (u * uy a + v * uy b))
             (Fin (u * uz a + v * uz b)).

(** The object [Plane([1, 2, 3])], with the default reference and
    axis. *)
Definition Plane_1_2_3 : Plane :=
  mkPlane (mkPoint3D (Fin 1) (Fin 2) (Fin 3)) UNITVECTOR3D_X UNITVECTOR3D_Z.

(** Two [ParamUV] objects with the same components as numbers. *)
Definition ParamUV_same (p q : ParamUV) : Prop :=
  _u p ≈ _u q /\ _v p ≈ _v q.



Definition UnitVector3D_same (a b : UnitVector3D) : Prop :=
  (ux a == ux b /\ uy a == uy b /\ uz a == uz b)%Q.

(** The point with the three given real coordinates. *)
Definition real_point (x y z : Q) : Point3D := mkPoint3D (Fin x) (Fin y) (Fin z).

(** The object [UnitVector3D([3/5, 4/5, 0])]. *)
Definition UnitVector3D_3_4_0 : UnitVector3D := mkUnitVector3D (3 # 5) (4 # 5) 0.

(** The object [Plane([1, 2, 3], UnitVector3D([3/5, 4/5, 0]))], with
    the default axis. *)
Definition Plane_tilted : Plane :=
  mkPlane (real_point 1 2 3) UnitVector3D_3_4_0 UNITVECTOR3D_Z.

(** The object [Interval(0, 1)] with [int] bounds, the object
    [Interval(0.0, 1.0)] with [float] bounds, and an interval marked
    empty. *)
Definition Py_Interval_0_1 : Py.Interval :=
  Py.mkInterval (Py.py_int 0) (Py.py_int 1) true.
Definition Py_Interval_0_1_float : Py.Interval :=
  Py.mkInterval (Py.py_float 0) (Py.py_float 1) true.
Definition Py_Interval_empty : Py.Interval :=
  Py.mkInterval (Py.py_int 0) (Py.py_int 1) false.

(** * Properties *)

(** ** Numbers *)

Lemma same_refl (a : Real) : a ≈ a.
Proof. destruct a; simpl; auto with qarith. Qed.

Lemma add_Fin_assoc (a : Real) (x y : Q) :
  Num.add (Num.add a (Fin x)) (Fin y) ≈ Num.add a (Fin (x + y)).
Proof. destruct a; simpl; auto. ring. Qed.

Lemma mul_Fin (x y : Q) : Num.mul (Fin x) (Fin y) = Fin (x * y).
Proof. reflexivity. Qed.



(** ** Results *)

Lemma bind_Ok_inv {A B : Type} (r : result A) (k : A -> result B) (b : B) :
  r ≫= k = Ok b -> exists a : A, r = Ok a /\ k a = Ok b.
Proof. destruct r as [a | e]; [by exists a | discriminate]. Qed.

(** ** [ParamUV] *)

Lemma check_input_types_instance {A : Type} (param : string) (c : pyclass)
    (f : pyval -> result A) (arg : pyval) :
  isinstance arg c = true -> check_input_types param c f arg = f arg.
Proof. unfold check_input_types. by intros ->. Qed.

Lemma check_input_types_foreign {A : Type} (param : string) (c : pyclass)
    (f : pyval -> result A) (arg : pyval) :
  isinstance arg c = false ->
  check_input_types param c f arg = Raise (BeartypeCallHintParamViolation param).
Proof. unfold check_input_types. by intros ->. Qed.

(** ** [Interval] *)

Lemma Interval___init___Ok (s e : Real) (iv : Interval) :
  Interval___init__ s e = Ok iv ->
  iv = mkInterval s e true /\ Interval_invariant iv.
Proof.
  unfold Interval___init__, Interval_invariant.
  destruct (Num.ltb e s) eqn:Hlt; [discriminate |].
  intros [= <-]. by split.
Qed.

Lemma Interval___init___ordered (s e : Real) :
  Num.ltb e s = false -> Interval___init__ s e = Ok (mkInterval s e true).
Proof. unfold Interval___init__. by intros ->. Qed.

Lemma Interval___init___inverted (s e : Real) :
  Num.ltb e s = true ->
  Interval___init__ s e = Raise (ValueError "Start value must be less than end value").
Proof. unfold Interval___init__. by intros ->. Qed.

(** Turns the boolean comparisons of rationals in the context and the
    goal into propositions and closes the goal by linear arithmetic. *)
Ltac order_Q :=
  repeat match goal with
  | H : negb _ = true |- _ => apply negb_true_iff in H
  | H : negb _ = false |- _ => apply negb_false_iff in H
  | H : Qle_bool _ _ = true |- _ => apply Qle_bool_iff in H
  | H : Qle_bool _ _ = false |- _ =>
      apply not_true_iff_false in H; rewrite Qle_bool_iff in H;
      apply Qnot_le_lt in H
  | |- negb _ = true => apply negb_true_iff
  | |- negb _ = false => apply negb_false_iff
  | |- Qle_bool _ _ = true => apply Qle_bool_iff
  | |- Qle_bool _ _ = false =>
      apply not_true_iff_false; rewrite Qle_bool_iff; apply Qlt_not_le
  end;
  try done; try lra.




(** [is_open] answers true exactly when the start is minus infinity and
    the end is an infinity of either sign. *)
Lemma Interval_is_open_true (self : Interval) :
  Interval_is_open self = true <->
  Interval_start self = NInf /\ (Interval_end self = PInf \/ Interval_end self = NInf).
Proof.
  unfold Interval_is_open. rewrite andb_true_iff.
  destruct (Interval_start self), (Interval_end self); simpl; intuition congruence.
Qed.

(** C8: the code at [Interval(-inf, -inf)].  The constructor accepts
    the two bounds and [is_open()] answers true, although the end is
    not plus infinity. *)
Theorem C8_is_open_accepts_negative_end :
  Interval___init__ NInf NInf = Ok Interval_ninf_ninf
  /\ Interval_is_open Interval_ninf_ninf = true
  /\ Interval_end Interval_ninf_ninf <> PInf.
Proof. repeat split; try reflexivity. discriminate. Qed.

Section IntervalProperties.
Context `{Accuracy}.

Lemma Interval_getattr_send (self : Interval) :
  Interval_getattr self "send"
    = Raise (AttributeError "'Interval' object has no attribute 'send'").
Proof. reflexivity. Qed.

(** With an empty operand, [intersect] returns [None]. *)
Lemma Interval_intersect_empty (first second : Interval) (tolerance : Real) :
  Interval_is_empty first || Interval_is_empty second = true ->
  Interval_intersect first second tolerance = Ok None.
Proof. unfold Interval_intersect. by intros ->. Qed.

(** With two non-empty operands, [intersect] stops at the attribute
    read [second.send]. *)
Lemma Interval_intersect_nonempty (first second : Interval) (tolerance : Real) :
  Interval_is_empty first = false -> Interval_is_empty second = false ->
  Interval_intersect first second tolerance
    = Raise (AttributeError "'Interval' object has no attribute 'send'").
Proof. unfold Interval_intersect. by intros -> ->. Qed.

(** C1: the code at [intersect(Interval(0, 10), Interval(5, 15),
    0.001)].  Both operands are non-empty and overlap on [[5, 10]];
    the call raises [AttributeError] and returns no interval. *)
Theorem C1_intersect_raises_AttributeError :
  Interval___init__ (Fin 0) (Fin 10) = Ok Interval_0_10
  /\ Interval___init__ (Fin 5) (Fin 15) = Ok Interval_5_15
  /\ Interval_intersect Interval_0_10 Interval_5_15 (Fin (1 # 1000))
     = Raise (AttributeError "'Interval' object has no attribute 'send'")
  /\ Interval_intersect Interval_0_10 Interval_5_15 (Fin (1 # 1000))
     <> Ok (Some (mkInterval (Fin 5) (Fin 10) true)).
Proof.
  split; [reflexivity |]. split; [reflexivity |].
  rewrite Interval_intersect_nonempty by reflexivity.
  split; [reflexivity | discriminate].
Qed.

(** The name [contains] is bound to the second definition. *)
Lemma Interval_namespace_contains :
  Interval_namespace !! "contains"%string = Some def_contains.
Proof.
  unfold Interval_namespace, class_namespace, Interval_class_body. simpl.
  apply lookup_insert_eq.
Qed.

(** Every call of [contains] with one argument raises [TypeError]: the
    body passes two arguments to the method of one parameter. *)
Lemma Interval_contains_one_argument (fuel : nat) (self : Interval) (t : Real) :
  Interval_contains (S (S fuel)) self [t]
    = Some (Raise (TypeError "contains() takes a different number of positional arguments")).
Proof.
  unfold Interval_contains. simpl. rewrite Interval_namespace_contains. reflexivity.
Qed.

(** Every call of [contains] with two arguments raises [TypeError]. *)
Lemma Interval_contains_two_arguments (fuel : nat) (self : Interval) (t accuracy : Real) :
  Interval_contains (S fuel) self [t; accuracy]
    = Some (Raise (TypeError "contains() takes a different number of positional arguments")).
Proof.
  unfold Interval_contains. simpl. rewrite Interval_namespace_contains. reflexivity.
Qed.

(** The first definition of [contains], had it kept its name: on a
    non-empty interval with real bounds [start <= end] it answers true
    iff [start - |accuracy| <= t <= end + |accuracy|]. *)
Lemma Interval_contains_accuracy_iff (s e t a : Q) :
  (s <= e)%Q ->
  Interval_contains_accuracy (mkInterval (Fin s) (Fin e) true) (Fin t) (Fin a) = true
  <-> (s - Qabs a <= t /\ t <= e + Qabs a)%Q.
Proof.
  intros Hse. unfold Interval_contains_accuracy, Num.gtb. simpl.
  replace (negb (Qle_bool s e)) with false
    by (symmetry; apply negb_false_iff, Qle_bool_iff, Hse).
  destruct (Qle_bool (- Qabs a) (t + - s)) eqn:H1;
    destruct (Qle_bool (- Qabs a) (e + - t)) eqn:H2; simpl;
    split; try discriminate; try (intros _; split); try (intros [? ?]);
    order_Q.
Qed.

Lemma Interval_contains_accuracy_examples (accuracy : Real) :
  Interval_contains_accuracy Interval_0_10 (Fin 5) accuracy = true
  /\ Interval_contains_accuracy Interval_0_10 (Fin (100000001 # 10000000)) (Fin (1 # 1000)) = true.
Proof.
  split; [| reflexivity].
  destruct accuracy as [a | | |]; try reflexivity.
  apply Interval_contains_accuracy_iff; [done |].
  pose proof (Qabs_nonneg a). split; lra.
Qed.

(** C2: the code at [Interval(0, 10).contains(5)] and at
    [Interval(0, 10).contains(10.0000001, 0.001)].  Both calls raise
    [TypeError]; neither returns true. *)
Theorem C2_contains_raises_TypeError (fuel : nat) :
  Interval___init__ (Fin 0) (Fin 10) = Ok Interval_0_10
  /\ Interval_contains (S (S fuel)) Interval_0_10 [Fin 5]
     = Some (Raise (TypeError "contains() takes a different number of positional arguments"))
  /\ Interval_contains (S fuel) Interval_0_10 [Fin (100000001 # 10000000); Fin (1 # 1000)]
     = Some (Raise (TypeError "contains() takes a different number of positional arguments")).
Proof.
  split; [reflexivity |]. split.
  - apply Interval_contains_one_argument.
  - apply Interval_contains_two_arguments.
Qed.

End IntervalProperties.

(** ** [Plane] and [PlaneEvaluation] *)

(** One coordinate of [origin + u * dir_x + v * dir_y]. *)
Lemma position_coordinate (o : Real) (u v x y : Q) :
  Num.add (Num.add o (Num.mul (Fin u) (Fin x))) (Num.mul (Fin v) (Fin y))
    ≈ Num.add o (Fin (u * x + v * y)).
Proof. rewrite !mul_Fin. apply add_Fin_assoc. Qed.

Lemma position_coordinate_origin (o : Real) (x y : Q) :
  Num.add (Num.add o (Num.mul (Fin 0) (Fin x))) (Num.mul (Fin 0) (Fin y)) ≈ o.
Proof. destruct o; simpl; auto. ring. Qed.

Lemma position_coordinate_unit_u (o : Real) (x y : Q) :
  Num.add (Num.add o (Num.mul (Fin 1) (Fin x))) (Num.mul (Fin 0) (Fin y))
    ≈ Num.add o (Fin x).
Proof. destruct o; simpl; auto. ring. Qed.

Section PlaneProperties.
Context `{Accuracy} `{Math3D}.

(** A plane that the constructor returns has perpendicular reference
    and axis, according to the test of the math library. *)
Lemma Plane___init___Ok (origin : pyval) (reference axis : option pyval) (plane : Plane) :
  Plane___init__ origin reference axis = Ok plane ->
  is_perpendicular_to (Plane_dir_x plane) (Plane_dir_z plane) = true.
Proof.
  unfold Plane___init__. intros Hinit.
  apply bind_Ok_inv in Hinit as (o & _ & Hinit).
  apply bind_Ok_inv in Hinit as (r & _ & Hinit).
  apply bind_Ok_inv in Hinit as (a & _ & Hinit).
  destruct (is_perpendicular_to r a) eqn:Hperp; [| discriminate].
  simpl in Hinit. by injection Hinit as <-.
Qed.

(** C4.  For every successfully constructed [Plane] and every
    parameter [p], the evaluation [PlaneEvaluation(plane, p)] has
    [u_derivative] equal to [plane.dir_z] and [v_derivative] equal to
    [plane.dir_y]. *)
Theorem C4_first_derivatives
    (origin : pyval) (reference axis : option pyval) (plane : Plane) (p : ParamUV) :
  Plane___init__ origin reference axis = Ok plane ->
  PlaneEvaluation_u_derivative (mkPlaneEvaluation plane p) = Plane_dir_z plane
  /\ PlaneEvaluation_v_derivative (mkPlaneEvaluation plane p) = Plane_dir_y plane.
Proof. intros _. split; reflexivity. Qed.

(** C5.  For every successfully constructed [Plane] and every real
    [u] and [v], [evaluate(ParamUV(u, v)).position] equals
    [origin + u*dir_x + v*dir_y]; in particular the position at
    [ParamUV(0, 0)] is the origin of the plane and the position at
    [ParamUV(1, 0)] is [origin + dir_x]. *)
Theorem C5_position
    (origin : pyval) (reference axis : option pyval) (plane : Plane) :
  Plane___init__ origin reference axis = Ok plane ->
  (forall u v : Real,
     PlaneEvaluation_position (Plane_evaluate plane (mkParamUV u v))
       = Point3D_add (Point3D_add (Plane_origin plane) (scale u (Plane_dir_x plane)))
                     (scale v (Plane_dir_y plane)))
  /\ (forall u v : Q,
        Point3D_same
          (PlaneEvaluation_position (Plane_evaluate plane (mkParamUV (Fin u) (Fin v))))
          (Point3D_add (Plane_origin plane)
             (linear_combination u v (Plane_dir_x plane) (Plane_dir_y plane))))
  /\ Point3D_same
       (PlaneEvaluation_position (Plane_evaluate plane (mkParamUV (Fin 0) (Fin 0))))
       (Plane_origin plane)
  /\ Point3D_same
       (PlaneEvaluation_position (Plane_evaluate plane (mkParamUV (Fin 1) (Fin 0))))
       (Point3D_add (Plane_origin plane) (as_vector (Plane_dir_x plane))).
Proof.
  intros _. split; [reflexivity |]. split; [| split].
  - intros u v. repeat split; apply position_coordinate.
  - repeat split; apply position_coordinate_origin.
  - repeat split; apply position_coordinate_unit_u.
Qed.

(** C9.  For every successfully constructed [Plane], every argument of
    [contains_param] and every argument of [contains_point], the call
    raises [NotImplementedError]; it does not return false. *)
Theorem C9_contains_not_implemented
    (origin : pyval) (reference axis : option pyval) (plane : Plane) (arg : pyval) :
  Plane___init__ origin reference axis = Ok plane ->
  Plane_contains_param plane arg
    = Raise (NotImplementedError "contains_param() is not implemented.")
  /\ Plane_contains_point plane arg
    = Raise (NotImplementedError "contains_point() is not implemented.")
  /\ Plane_contains_param plane arg <> Ok false
  /\ Plane_contains_point plane arg <> Ok false.
Proof. intros _. repeat split; (reflexivity || discriminate). Qed.

(** C10.  For every [Plane], [==] against a value that is not a
    [Plane] raises the type-validation error of the decorator, whereas
    [Interval.__eq__] against a value that is not an [Interval]
    returns [NotImplemented]. *)
Theorem C10_foreign_type_equality (plane : Plane) (interval : Interval) (other : pyval) :
  (isinstance other cls_Plane = false ->
   Plane___eq__ plane other = Raise (BeartypeCallHintParamViolation "other"))
  /\ (isinstance other cls_Interval = false ->
      Interval___eq__ interval other = PyNotImplemented).
Proof.
  split.
  - intros Hother. by apply check_input_types_foreign.
  - by destruct other.
Qed.

End PlaneProperties.

(** ** The theorems at concrete objects *)

Lemma C4_first_derivatives_witness :
  Plane___init__ (PySeq [Fin 1; Fin 2; Fin 3]) None None = Ok Plane_1_2_3
  /\ PlaneEvaluation_u_derivative (mkPlaneEvaluation Plane_1_2_3 (mkParamUV (Fin 2) (Fin 7)))
     = UNITVECTOR3D_Z
  /\ PlaneEvaluation_v_derivative (mkPlaneEvaluation Plane_1_2_3 (mkParamUV (Fin 2) (Fin 7)))
     = cross UNITVECTOR3D_Z UNITVECTOR3D_X.
Proof.
  split; [reflexivity |].
  apply (C4_first_derivatives (PySeq [Fin 1; Fin 2; Fin 3]) None None Plane_1_2_3).
  reflexivity.
Defined.

Lemma C5_position_witness :
  Plane___init__ (PySeq [Fin 1; Fin 2; Fin 3]) None None = Ok Plane_1_2_3
  /\ Point3D_same
       (PlaneEvaluation_position (Plane_evaluate Plane_1_2_3 (mkParamUV (Fin 0) (Fin 0))))
       (mkPoint3D (Fin 1) (Fin 2) (Fin 3))
  /\ Point3D_same
       (PlaneEvaluation_position (Plane_evaluate Plane_1_2_3 (mkParamUV (Fin 1) (Fin 0))))
       (Point3D_add (mkPoint3D (Fin 1) (Fin 2) (Fin 3)) (as_vector UNITVECTOR3D_X)).
Proof.
  split; [reflexivity |].
  apply (C5_position (PySeq [Fin 1; Fin 2; Fin 3]) None None Plane_1_2_3).
  reflexivity.
Defined.

Lemma C9_contains_not_implemented_witness :
  Plane___init__ (PySeq [Fin 1; Fin 2; Fin 3]) None None = Ok Plane_1_2_3
  /\ Plane_contains_param Plane_1_2_3 (PyParamUV (mkParamUV (Fin 0) (Fin 0)))
     = Raise (NotImplementedError "contains_param() is not implemented.")
  /\ Plane_contains_point Plane_1_2_3 (PyParamUV (mkParamUV (Fin 0) (Fin 0)))
     = Raise (NotImplementedError "contains_point() is not implemented.").
Proof.
  split; [reflexivity |].
  pose proof (C9_contains_not_implemented (PySeq [Fin 1; Fin 2; Fin 3]) None None
                Plane_1_2_3 (PyParamUV (mkParamUV (Fin 0) (Fin 0))) eq_refl) as Hc.
  exact (conj (proj1 Hc) (proj1 (proj2 Hc))).
Defined.

Lemma C10_foreign_type_equality_witness :
  Plane___eq__ Plane_1_2_3 (PyNum (Fin 5)) = Raise (BeartypeCallHintParamViolation "other")
  /\ Interval___eq__ Interval_0_10 (PyNum (Fin 5)) = PyNotImplemented.
Proof.
  split.
  - apply (proj1 (C10_foreign_type_equality Plane_1_2_3 Interval_0_10 (PyNum (Fin 5)))).
    reflexivity.
  - apply (proj2 (C10_foreign_type_equality Plane_1_2_3 Interval_0_10 (PyNum (Fin 5)))).
    reflexivity.
Defined.

(** ** [ParamUV]: the four operators *)

Section ParamUVProperties.
Context `{Py.NumPy}.

Lemma ParamUV_operator_components (o : Py.operator) (p q : Py.ParamUV) :
  Py.ParamUV_operator o p (Py.obj_ParamUV q)
  = (u ← Py.number_operator o (Py._u p) (Py._u q);
     v ← Py.number_operator o (Py._v p) (Py._v q);
     Ok (Py.mkParamUV u v)).
Proof. by destruct o. Qed.

Lemma float_truediv_zero (x z : float) :
  (z =? 0)%float = true ->
  Py.float_operator Py.TrueDiv x z = Raise (ZeroDivisionError "float division by zero").
Proof. unfold Py.float_operator. by intros ->. Qed.

Lemma float_truediv_total (x y : float) :
  Py.float_operator Py.TrueDiv x y = Raise (ZeroDivisionError "float division by zero")
  \/ Py.float_operator Py.TrueDiv x y = Ok (x / y)%float.
Proof. unfold Py.float_operator. destruct (y =? 0)%float; [by left | by right]. Qed.

Lemma int_truediv_zero (a : Z) :
  Py.int_truediv a 0 = Raise (ZeroDivisionError "division by zero").
Proof. reflexivity. Qed.

(** C3 (amended).  For every pair of [ParamUV] values, each of [+],
    [-], [*] and [/] applies Python's operator to the u components and
    then to the v components and returns a new [ParamUV] that holds the
    two results; the call fails exactly when one of the two component
    operations fails, with the exception of that operation.  On [int]
    components [+], [-] and [*] are exact and never fail; on [float]
    components they never fail and give the IEEE 754 results.  [/]
    fails when a component of the divisor is zero: with
    [ZeroDivisionError] on [float] components and on an [int] u
    component. *)
Theorem C3_ParamUV_operators (o : Py.operator) (p q : Py.ParamUV) :
  (forall u v : Py.num,
      Py.number_operator o (Py._u p) (Py._u q) = Ok u ->
      Py.number_operator o (Py._v p) (Py._v q) = Ok v ->
      Py.ParamUV_operator o p (Py.obj_ParamUV q) = Ok (Py.mkParamUV u v))
  /\ (forall e : exn,
      Py.number_operator o (Py._u p) (Py._u q) = Raise e ->
      Py.ParamUV_operator o p (Py.obj_ParamUV q) = Raise e)
  /\ (forall (u : Py.num) (e : exn),
      Py.number_operator o (Py._u p) (Py._u q) = Ok u ->
      Py.number_operator o (Py._v p) (Py._v q) = Raise e ->
      Py.ParamUV_operator o p (Py.obj_ParamUV q) = Raise e)
  /\ (forall a b c d : Z,
      Py.ParamUV___add__ (Py.mkParamUV (Py.py_int a) (Py.py_int b))
                         (Py.obj_ParamUV (Py.mkParamUV (Py.py_int c) (Py.py_int d)))
        = Ok (Py.mkParamUV (Py.py_int (a + c)) (Py.py_int (b + d)))
      /\ Py.ParamUV___sub__ (Py.mkParamUV (Py.py_int a) (Py.py_int b))
                            (Py.obj_ParamUV (Py.mkParamUV (Py.py_int c) (Py.py_int d)))
        = Ok (Py.mkParamUV (Py.py_int (a - c)) (Py.py_int (b - d)))
      /\ Py.ParamUV___mul__ (Py.mkParamUV (Py.py_int a) (Py.py_int b))
                            (Py.obj_ParamUV (Py.mkParamUV (Py.py_int c) (Py.py_int d)))
        = Ok (Py.mkParamUV (Py.py_int (a * c)) (Py.py_int (b * d))))
  /\ (forall a b c d : float,
      Py.ParamUV___add__ (Py.mkParamUV (Py.py_float a) (Py.py_float b))
                         (Py.obj_ParamUV (Py.mkParamUV (Py.py_float c) (Py.py_float d)))
        = Ok (Py.mkParamUV (Py.py_float (a + c)) (Py.py_float (b + d)))
      /\ Py.ParamUV___sub__ (Py.mkParamUV (Py.py_float a) (Py.py_float b))
                            (Py.obj_ParamUV (Py.mkParamUV (Py.py_float c) (Py.py_float d)))
        = Ok (Py.mkParamUV (Py.py_float (a - c)) (Py.py_float (b - d)))
      /\ Py.ParamUV___mul__ (Py.mkParamUV (Py.py_float a) (Py.py_float b))
                            (Py.obj_ParamUV (Py.mkParamUV (Py.py_float c) (Py.py_float d)))
        = Ok (Py.mkParamUV (Py.py_float (a * c)) (Py.py_float (b * d))))
  /\ (forall a b c d : float,
      ((c =? 0) || (d =? 0))%float = true ->
      Py.ParamUV___truediv__ (Py.mkParamUV (Py.py_float a) (Py.py_float b))
                             (Py.obj_ParamUV (Py.mkParamUV (Py.py_float c) (Py.py_float d)))
        = Raise (ZeroDivisionError "float division by zero"))
  /\ (forall a b c d : Z,
      (c = 0 ->
       Py.ParamUV___truediv__ (Py.mkParamUV (Py.py_int a) (Py.py_int b))
                              (Py.obj_ParamUV (Py.mkParamUV (Py.py_int c) (Py.py_int d)))
         = Raise (ZeroDivisionError "division by zero"))
      /\ (d = 0 ->
          exists e : exn,
            Py.ParamUV___truediv__ (Py.mkParamUV (Py.py_int a) (Py.py_int b))
                                   (Py.obj_ParamUV (Py.mkParamUV (Py.py_int c) (Py.py_int d)))
              = Raise e))%Z.
Proof.
  split; [| split; [| split; [| split; [| split; [| split]]]]].
  - intros u v Hu Hv. rewrite ParamUV_operator_components, Hu. simpl. by rewrite Hv.
  - intros e Hu. by rewrite ParamUV_operator_components, Hu.
  - intros u e Hu Hv. rewrite ParamUV_operator_components, Hu. simpl. by rewrite Hv.
  - intros a b c d. by repeat split.
  - intros a b c d. by repeat split.
  - intros a b c d Hz.
    unfold Py.ParamUV___truediv__, Py.check_input_types, Py.number_operator.
    cbn [Py._u Py._v].
    destruct (c =? 0)%float eqn:Hc.
    + by rewrite (float_truediv_zero a c Hc).
    + simpl in Hz. destruct (float_truediv_total a c) as [-> | ->]; [done |].
      cbn [mbind result_bind]. by rewrite (float_truediv_zero b d Hz).
  - intros a b c d. split.
    + by intros ->.
    + intros ->.
      unfold Py.ParamUV___truediv__, Py.check_input_types, Py.number_operator.
      cbn [Py._u Py._v].
      destruct (Py.int_truediv a c) as [x | e]; cbn [mbind result_bind].
      * rewrite int_truediv_zero. by eexists.
      * by eexists.
Qed.

End ParamUVProperties.

(** C3, as stated, fails: [ParamUV(1, 2) / ParamUV(0, 1)] raises
    [ZeroDivisionError]; the division does not produce a [ParamUV]. *)
Lemma C3_truediv_zero_component_raises :
  Py.ParamUV___truediv__ (Py.mkParamUV (Py.py_int 1) (Py.py_int 2))
                         (Py.obj_ParamUV (Py.mkParamUV (Py.py_int 0) (Py.py_int 1)))
    = Raise (ZeroDivisionError "division by zero")
  /\ ~ exists r : Py.ParamUV,
         Py.ParamUV___truediv__ (Py.mkParamUV (Py.py_int 1) (Py.py_int 2))
                                (Py.obj_ParamUV (Py.mkParamUV (Py.py_int 0) (Py.py_int 1)))
           = Ok r.
Proof. split; [reflexivity | intros [r Hr]; discriminate Hr]. Qed.

Lemma C3_ParamUV_operators_witness :
  Py.ParamUV_operator Py.Mul
      (Py.mkParamUV (Py.py_int 2) (Py.py_float 0.5))
      (Py.obj_ParamUV (Py.mkParamUV (Py.py_int 3) (Py.py_float 4)))
    = Ok (Py.mkParamUV (Py.py_int 6) (Py.py_float 2))
  /\ Py.ParamUV_operator Py.Add
      (Py.mkParamUV (Py.py_int (10 ^ 400)) (Py.py_int 1))
      (Py.obj_ParamUV (Py.mkParamUV (Py.py_float 1) (Py.py_int 1)))
    = Raise (OverflowError "int too large to convert to float")
  /\ Py.ParamUV_operator Py.TrueDiv
      (Py.mkParamUV (Py.py_int 1) (Py.py_float 2))
      (Py.obj_ParamUV (Py.mkParamUV (Py.py_int 4) (Py.py_int 0)))
    = Raise (ZeroDivisionError "float division by zero")
  /\ Py.ParamUV___truediv__
      (Py.mkParamUV (Py.py_float 1) (Py.py_float 2))
      (Py.obj_ParamUV (Py.mkParamUV (Py.py_float 4) (Py.py_float (-0))))
    = Raise (ZeroDivisionError "float division by zero")
  /\ Py.ParamUV___truediv__
      (Py.mkParamUV (Py.py_int 1) (Py.py_int 2))
      (Py.obj_ParamUV (Py.mkParamUV (Py.py_int 0) (Py.py_int 1)))
    = Raise (ZeroDivisionError "division by zero")
  /\ exists e : exn,
      Py.ParamUV___truediv__
        (Py.mkParamUV (Py.py_int 1) (Py.py_int 2))
        (Py.obj_ParamUV (Py.mkParamUV (Py.py_int 1) (Py.py_int 0)))
      = Raise e.
Proof.
  split; [| split; [| split; [| split; [| split]]]].
  - apply (proj1 (C3_ParamUV_operators Py.Mul
                    (Py.mkParamUV (Py.py_int 2) (Py.py_float 0.5))
                    (Py.mkParamUV (Py.py_int 3) (Py.py_float 4)))); reflexivity.
  - apply (proj1 (proj2 (C3_ParamUV_operators Py.Add
                    (Py.mkParamUV (Py.py_int (10 ^ 400)) (Py.py_int 1))
                    (Py.mkParamUV (Py.py_float 1) (Py.py_int 1))))).
    vm_compute. reflexivity.
  - apply (proj1 (proj2 (proj2 (C3_ParamUV_operators Py.TrueDiv
                    (Py.mkParamUV (Py.py_int 1) (Py.py_float 2))
                    (Py.mkParamUV (Py.py_int 4) (Py.py_int 0)))))
             (Py.py_float 0.25)); reflexivity.
  - apply (proj1 (proj2 (proj2 (proj2 (proj2 (proj2
             (C3_ParamUV_operators Py.Add (Py.mkParamUV (Py.py_int 0) (Py.py_int 0))
                                   (Py.mkParamUV (Py.py_int 0) (Py.py_int 0))))))))).
    reflexivity.
  - apply (proj1 (proj2 (proj2 (proj2 (proj2 (proj2 (proj2
             (C3_ParamUV_operators Py.Add (Py.mkParamUV (Py.py_int 0) (Py.py_int 0))
                                   (Py.mkParamUV (Py.py_int 0) (Py.py_int 0)))))))) 1 2 0 1)%Z).
    reflexivity.
  - apply (proj2 (proj2 (proj2 (proj2 (proj2 (proj2 (proj2
             (C3_ParamUV_operators Py.Add (Py.mkParamUV (Py.py_int 0) (Py.py_int 0))
                                   (Py.mkParamUV (Py.py_int 0) (Py.py_int 0)))))))) 1 2 1 0)%Z).
    reflexivity.
Defined.

(** The operators at concrete objects.  [ParamUV(1, 2) + ParamUV(3, 4)]
    has the components [(4, 6)]; [ParamUV(2, 4) / ParamUV(2, 2)] has the
    [float] components [(1.0, 2.0)]; an [int] beyond the range of
    binary64 that meets a [float] raises [OverflowError]; the product of
    two [float] can overflow to an infinity without raising. *)
Lemma ParamUV_operators_examples :
  Py.ParamUV___add__ (Py.mkParamUV (Py.py_int 1) (Py.py_int 2))
                     (Py.obj_ParamUV (Py.mkParamUV (Py.py_int 3) (Py.py_int 4)))
    = Ok (Py.mkParamUV (Py.py_int 4) (Py.py_int 6))
  /\ Py.ParamUV___truediv__ (Py.mkParamUV (Py.py_int 2) (Py.py_int 4))
                            (Py.obj_ParamUV (Py.mkParamUV (Py.py_int 2) (Py.py_int 2)))
     = Ok (Py.mkParamUV (Py.py_float 1) (Py.py_float 2))
  /\ Py.ParamUV___add__ (Py.mkParamUV (Py.py_int (10 ^ 400)) (Py.py_int 1))
                        (Py.obj_ParamUV (Py.mkParamUV (Py.py_float 1) (Py.py_int 1)))
     = Raise (OverflowError "int too large to convert to float")
  /\ Py.ParamUV___truediv__ (Py.mkParamUV (Py.py_int (10 ^ 400)) (Py.py_int 1))
                            (Py.obj_ParamUV (Py.mkParamUV (Py.py_int 3) (Py.py_int 1)))
     = Raise (OverflowError "integer division result too large for a float")
  /\ Py.ParamUV___mul__ (Py.mkParamUV (Py.py_float 0x1p+1023) (Py.py_float 1))
                        (Py.obj_ParamUV (Py.mkParamUV (Py.py_float 2) (Py.py_float 1)))
     = Ok (Py.mkParamUV (Py.py_float infinity) (Py.py_float 1)).
Proof. repeat split; vm_compute; reflexivity. Qed.

(** ** [Interval.inflate] *)

Section InflateProperties.
Context `{Py.NumPy}.

Lemma Interval___init___lt (s e : Py.num) (lt : bool) :
  Py.number_lt e s = Ok lt ->
  Py.Interval___init__ s e
  = if lt then Raise (ValueError "Start value must be less than end value")
    else Ok (Py.mkInterval s e true).
Proof. unfold Py.Interval___init__. by intros ->. Qed.

Lemma Interval_inflate_nonempty (self : Py.Interval) (delta : Py.num) :
  Py.Interval_is_empty self = false ->
  Py.Interval_inflate self delta
  = (s ← Py.number_operator Py.Sub (Py.Interval_start self) delta;
     e ← Py.number_operator Py.Add (Py.Interval_end self) delta;
     Py.Interval___init__ s e).
Proof. unfold Py.Interval_inflate. by intros ->. Qed.

(** C7 (amended).  For every non-empty interval and every delta,
    [inflate] computes [start - delta] and then [end + delta] with
    Python's arithmetic.  When one of the two operations fails, the
    call fails with its exception.  Otherwise the call returns a new
    interval whose bounds are the two computed values when the computed
    end is not less than the computed start, and fails with the
    [ValueError] of the constructor when it is.  For [int] bounds and
    an [int] delta the computed values are exact: the call returns the
    interval [(start - delta, end + delta)] when
    [start - delta <= end + delta], which holds whenever
    [start <= end] and [0 <= delta], and raises [ValueError] otherwise.
    For [float] bounds and a [float] delta the computed values are the
    IEEE 754 results and no arithmetic exception occurs.  For every
    empty interval and every delta the call fails with the invalid-state
    exception. *)
Theorem C7_inflate (self : Py.Interval) (delta : Py.num) :
  (Py.Interval_is_empty self = true ->
   Py.Interval_inflate self delta
     = Raise (Exception "Invalid Method On Empty Object ExceptionInterval"))
  /\ (Py.Interval_is_empty self = false ->
      (forall x : exn,
          Py.number_operator Py.Sub (Py.Interval_start self) delta = Raise x ->
          Py.Interval_inflate self delta = Raise x)
      /\ (forall (s : Py.num) (x : exn),
          Py.number_operator Py.Sub (Py.Interval_start self) delta = Ok s ->
          Py.number_operator Py.Add (Py.Interval_end self) delta = Raise x ->
          Py.Interval_inflate self delta = Raise x)
      /\ (forall s e : Py.num,
          Py.number_operator Py.Sub (Py.Interval_start self) delta = Ok s ->
          Py.number_operator Py.Add (Py.Interval_end self) delta = Ok e ->
          (Py.number_lt e s = Ok false ->
           Py.Interval_inflate self delta = Ok (Py.mkInterval s e true))
          /\ (Py.number_lt e s = Ok true ->
              Py.Interval_inflate self delta
                = Raise (ValueError "Start value must be less than end value")))
      /\ (forall a b d : Z,
          Py.Interval_start self = Py.py_int a ->
          Py.Interval_end self = Py.py_int b ->
          delta = Py.py_int d ->
          (a - d <= b + d ->
           Py.Interval_inflate self delta
             = Ok (Py.mkInterval (Py.py_int (a - d)) (Py.py_int (b + d)) true))
          /\ (a <= b -> 0 <= d ->
              Py.Interval_inflate self delta
                = Ok (Py.mkInterval (Py.py_int (a - d)) (Py.py_int (b + d)) true))
          /\ (b + d < a - d ->
              Py.Interval_inflate self delta
                = Raise (ValueError "Start value must be less than end value")))%Z
      /\ (forall a b d : float,
          Py.Interval_start self = Py.py_float a ->
          Py.Interval_end self = Py.py_float b ->
          delta = Py.py_float d ->
          Py.Interval_inflate self delta
            = if (b + d <? a - d)%float
              then Raise (ValueError "Start value must be less than end value")
              else Ok (Py.mkInterval (Py.py_float (a - d)) (Py.py_float (b + d)) true))).
Proof.
  split.
  - unfold Py.Interval_inflate. by intros ->.
  - intros Hne. rewrite (Interval_inflate_nonempty self delta Hne).
    split; [| split; [| split; [| split]]].
    + by intros x ->.
    + intros s x -> Hx. cbn [mbind result_bind]. by rewrite Hx.
    + intros s e -> He. cbn [mbind result_bind]. rewrite He. cbn [mbind result_bind].
      split; intros Hlt; by rewrite (Interval___init___lt s e _ Hlt).
    + intros a b d -> -> ->. cbn [mbind result_bind Py.number_operator].
      assert (Hinit : forall lt : bool, (b + d <? a - d)%Z = lt ->
                Py.Interval___init__ (Py.py_int (a - d)) (Py.py_int (b + d))
                = if lt then Raise (ValueError "Start value must be less than end value")
                  else Ok (Py.mkInterval (Py.py_int (a - d)) (Py.py_int (b + d)) true)).
      { intros lt Hlt. apply Interval___init___lt. simpl. by rewrite Hlt. }
      split; [| split].
      * intros Hle. apply (Hinit false). apply Z.ltb_ge. exact Hle.
      * intros Hab Hd. apply (Hinit false). apply Z.ltb_ge. lia.
      * intros Hlt. apply (Hinit true). apply Z.ltb_lt. exact Hlt.
    + intros a b d -> -> ->. cbn [mbind result_bind Py.number_operator Py.float_operator].
      by apply Interval___init___lt.
Qed.

End InflateProperties.

(** C7, as stated, fails: [Interval(0, 1).inflate(-1)] computes the
    bounds [(1, 0)], which the constructor rejects; the call raises
    [ValueError] and returns no interval. *)
Lemma C7_inflate_negative_delta_raises :
  Py.Interval___init__ (Py.py_int 0) (Py.py_int 1) = Ok Py_Interval_0_1
  /\ Py.Interval_inflate Py_Interval_0_1 (Py.py_int (-1))
     = Raise (ValueError "Start value must be less than end value")
  /\ ~ exists r : Py.Interval,
         Py.Interval_inflate Py_Interval_0_1 (Py.py_int (-1)) = Ok r.
Proof. split; [reflexivity | split; [reflexivity | intros [r Hr]; discriminate Hr]]. Qed.

Lemma C7_inflate_witness :
  Py.Interval_inflate Py_Interval_empty (Py.py_int 2)
    = Raise (Exception "Invalid Method On Empty Object ExceptionInterval")
  /\ Py.Interval_inflate (Py.mkInterval (Py.py_int (10 ^ 400)) (Py.py_int (10 ^ 400)) true)
                         (Py.py_float 1)
     = Raise (OverflowError "int too large to convert to float")
  /\ Py.Interval_inflate (Py.mkInterval (Py.py_float 0) (Py.py_int (10 ^ 400)) true)
                         (Py.py_float 1)
     = Raise (OverflowError "int too large to convert to float")
  /\ Py.Interval_inflate Py_Interval_0_1 (Py.py_float 0.5)
     = Ok (Py.mkInterval (Py.py_float (-0.5)) (Py.py_float 1.5) true)
  /\ Py.Interval_inflate Py_Interval_0_1 (Py.py_float (-1))
     = Raise (ValueError "Start value must be less than end value")
  /\ Py.Interval_inflate Py_Interval_0_1 (Py.py_int (-1))
     = Raise (ValueError "Start value must be less than end value")
  /\ Py.Interval_inflate Py_Interval_0_1 (Py.py_int 2)
     = Ok (Py.mkInterval (Py.py_int (-2)) (Py.py_int 3) true)
  /\ Py.Interval_inflate Py_Interval_0_1_float (Py.py_float 0.25)
     = Ok (Py.mkInterval (Py.py_float (-0.25)) (Py.py_float 1.25) true).
Proof.
  split; [| split; [| split; [| split; [| split; [| split; [| split]]]]]].
  - apply (proj1 (C7_inflate Py_Interval_empty (Py.py_int 2))). reflexivity.
  - apply (proj1 (proj2 (C7_inflate
             (Py.mkInterval (Py.py_int (10 ^ 400)) (Py.py_int (10 ^ 400)) true)
             (Py.py_float 1)) eq_refl)).
    vm_compute. reflexivity.
  - apply (proj1 (proj2 (proj2 (C7_inflate
             (Py.mkInterval (Py.py_float 0) (Py.py_int (10 ^ 400)) true)
             (Py.py_float 1)) eq_refl)) (Py.py_float (-1))).
    + reflexivity.
    + vm_compute. reflexivity.
  - apply (proj1 (proj2 (proj2 (proj2 (C7_inflate Py_Interval_0_1 (Py.py_float 0.5))
             eq_refl))) (Py.py_float (-0.5)) (Py.py_float 1.5)); reflexivity.
  - apply (proj1 (proj2 (proj2 (proj2 (C7_inflate Py_Interval_0_1 (Py.py_float (-1)))
             eq_refl))) (Py.py_float 1) (Py.py_float 0)); reflexivity.
  - apply (proj1 (proj2 (proj2 (proj2 (proj2 (C7_inflate Py_Interval_0_1 (Py.py_int (-1)))
             eq_refl)))) 0 1 (-1))%Z; try reflexivity.
  - apply (proj1 (proj2 (proj2 (proj2 (proj2 (C7_inflate Py_Interval_0_1 (Py.py_int 2))
             eq_refl)))) 0 1 2)%Z; try reflexivity; lia.
  - apply (proj2 (proj2 (proj2 (proj2 (proj2 (C7_inflate Py_Interval_0_1_float
             (Py.py_float 0.25)) eq_refl)))) 0 1 0.25)%float; reflexivity.
Defined.

(** What rounding does to [inflate] on [float] bounds: a delta that is
    small against the bounds leaves them as they are, so
    [Interval(1.0, 1.0).inflate(-2 ** -60)] returns [Interval(1.0, 1.0)];
    and a bound can overflow to an infinity. *)
Lemma Interval_inflate_float_examples :
  Py.Interval_inflate (Py.mkInterval (Py.py_float 1) (Py.py_float 1) true)
                      (Py.py_float (-0x1p-60))
    = Ok (Py.mkInterval (Py.py_float 1) (Py.py_float 1) true)
  /\ Py.Interval_inflate (Py.mkInterval (Py.py_float 0) (Py.py_float 0x1p+1023) true)
                         (Py.py_float 0x1p+1023)
     = Ok (Py.mkInterval (Py.py_float (-0x1p+1023)) (Py.py_float infinity) true).
Proof. split; reflexivity. Qed.

(** * Further properties *)

(** ** [ParamUV]: addition and subtraction *)

(** X1.  On [int] components [(p + q) - q] returns the components of
    [p] exactly, for all values.  On [float] components it does not:
    [(ParamUV(0.1, 0.5) + ParamUV(0.2, 0.25)) - ParamUV(0.2, 0.25)]
    has the u component [0.10000000000000003].  (In the statement
    [0x1.999999999999ap-4] is the [float] that Python prints as [0.1],
    [0x1.999999999999ap-3] is [0.2] and [0x1.999999999999cp-4] is
    [0.10000000000000003].) *)
Theorem ParamUV_add_sub_round_trip `{Py.NumPy} (a b c d : Z) :
  (r ← Py.ParamUV___add__ (Py.mkParamUV (Py.py_int a) (Py.py_int b))
                          (Py.obj_ParamUV (Py.mkParamUV (Py.py_int c) (Py.py_int d)));
   Py.ParamUV___sub__ r (Py.obj_ParamUV (Py.mkParamUV (Py.py_int c) (Py.py_int d))))
    = Ok (Py.mkParamUV (Py.py_int a) (Py.py_int b))
  /\ (r ← Py.ParamUV___add__
            (Py.mkParamUV (Py.py_float 0x1.999999999999ap-4) (Py.py_float 0.5))
            (Py.obj_ParamUV
               (Py.mkParamUV (Py.py_float 0x1.999999999999ap-3) (Py.py_float 0.25)));
      Py.ParamUV___sub__ r
        (Py.obj_ParamUV
           (Py.mkParamUV (Py.py_float 0x1.999999999999ap-3) (Py.py_float 0.25))))
     = Ok (Py.mkParamUV (Py.py_float 0x1.999999999999cp-4) (Py.py_float 0.5)).
Proof.
  split; [| reflexivity].
  cbn. by rewrite !Z.add_simpl_r.
Qed.

(** ** [ParamUV]: the decorator *)

(** X4.  Each of the four operators rejects an operand that is not a
    [ParamUV] (a number, for one) with the violation of the decorator;
    in particular dividing by the number zero raises that violation and
    not [ZeroDivisionError]. *)
Theorem ParamUV_operators_reject_foreign_operand (self : ParamUV) (other : pyval) :
  isinstance other cls_ParamUV = false ->
  ParamUV___add__ self other = Raise (BeartypeCallHintParamViolation "other")
  /\ ParamUV___sub__ self other = Raise (BeartypeCallHintParamViolation "other")
  /\ ParamUV___mul__ self other = Raise (BeartypeCallHintParamViolation "other")
  /\ ParamUV___truediv__ self other = Raise (BeartypeCallHintParamViolation "other").
Proof.
  intros Hother. repeat split; by apply check_input_types_foreign.
Qed.

Lemma ParamUV_operators_reject_foreign_operand_witness :
  ParamUV___add__ (mkParamUV (Fin 1) (Fin 2)) (PyNum (Fin 0))
    = Raise (BeartypeCallHintParamViolation "other")
  /\ ParamUV___sub__ (mkParamUV (Fin 1) (Fin 2)) (PyNum (Fin 0))
    = Raise (BeartypeCallHintParamViolation "other")
  /\ ParamUV___mul__ (mkParamUV (Fin 1) (Fin 2)) (PyNum (Fin 0))
    = Raise (BeartypeCallHintParamViolation "other")
  /\ ParamUV___truediv__ (mkParamUV (Fin 1) (Fin 2)) (PyNum (Fin 0))
    = Raise (BeartypeCallHintParamViolation "other").
Proof.
  apply (ParamUV_operators_reject_foreign_operand (mkParamUV (Fin 1) (Fin 2)) (PyNum (Fin 0))).
  reflexivity.
Defined.

(** ** Order of numbers *)

Lemma ltb_irrefl (a : Real) : Num.ltb a a = false.
Proof. destruct a; simpl; try done. order_Q. Qed.










(** ** [Interval]: construction and span *)

(** X5.  The constructor accepts a point interval for every number,
    and accepts every pair of bounds of which one is not-a-number: its
    test [end < start] is false there. *)
Theorem Interval___init___accepts_point_and_nan (x : Real) :
  Interval___init__ x x = Ok (mkInterval x x true)
  /\ Interval___init__ NaN x = Ok (mkInterval NaN x true)
  /\ Interval___init__ x NaN = Ok (mkInterval x NaN true).
Proof.
  split; [| split]; apply Interval___init___ordered.
  - apply ltb_irrefl.
  - by destruct x.
  - reflexivity.
Qed.

(** X7.  An interval that [is_open] reports as open is not closed, and
    [get_span] and [get_relative_val] raise [ValueError] on it. *)
Theorem Interval_open_has_no_span (self : Interval) (t : Real) :
  Interval_is_open self = true ->
  Interval_is_closed self = false
  /\ Interval_get_span self = Raise (ValueError "Interval must be closed to get the span.")
  /\ Interval_get_relative_val self t
     = Raise (ValueError "Interval must be closed to get the span.").
Proof.
  intros Hopen. apply Interval_is_open_true in Hopen as [Hs _].
  assert (Interval_is_closed self = false) as Hc.
  { unfold Interval_is_closed. by rewrite Hs. }
  unfold Interval_get_relative_val, Interval_get_span. rewrite Hc. by repeat split.
Qed.

Lemma Interval_open_has_no_span_witness :
  Interval_is_closed (mkInterval NInf PInf true) = false
  /\ Interval_get_span (mkInterval NInf PInf true)
     = Raise (ValueError "Interval must be closed to get the span.")
  /\ Interval_get_relative_val (mkInterval NInf PInf true) (Fin (1 # 2))
     = Raise (ValueError "Interval must be closed to get the span.").
Proof.
  apply (Interval_open_has_no_span (mkInterval NInf PInf true) (Fin (1 # 2))). reflexivity.
Defined.

(** ** [Interval]: union *)






(** ** [Interval]: intersection, membership and equality *)

Section IntervalFurtherProperties.
Context `{Accuracy}.

(** X11.  [intersect] never returns an interval: for all operands and
    every tolerance the call returns [None] or raises. *)
Theorem Interval_intersect_never_returns_interval
    (first second : Interval) (tolerance : Real) (iv : Interval) :
  Interval_intersect first second tolerance <> Ok (Some iv).
Proof.
  destruct (Interval_is_empty first) eqn:Hf.
  - rewrite Interval_intersect_empty by (by rewrite Hf). discriminate.
  - destruct (Interval_is_empty second) eqn:Hs.
    + rewrite Interval_intersect_empty by (rewrite Hf, Hs; reflexivity). discriminate.
    + rewrite Interval_intersect_nonempty by done. discriminate.
Qed.

(** X12.  No call of [contains] on an interval returns a boolean:
    whatever the number of arguments, the call raises [TypeError]. *)
Theorem Interval_contains_always_raises (fuel : nat) (self : Interval) (args : list Real) :
  Interval_contains (S (S fuel)) self args
    = Some (Raise (TypeError "contains() takes a different number of positional arguments")).
Proof.
  destruct args as [| t [| accuracy rest]].
  - unfold Interval_contains. simpl. rewrite Interval_namespace_contains. reflexivity.
  - apply Interval_contains_one_argument.
  - unfold Interval_contains. simpl. rewrite Interval_namespace_contains. reflexivity.
Qed.

(** X14.  [==] between two intervals: two empty intervals are equal
    whatever their bounds, an empty and a non-empty interval are
    different, and the answer is never [NotImplemented]. *)
Theorem Interval___eq___empty_operands (self other : Interval) :
  (Interval_is_empty self = true -> Interval_is_empty other = true ->
   Interval___eq__ self (PyInterval other) = PyBool true)
  /\ (Interval_is_empty self <> Interval_is_empty other ->
      Interval___eq__ self (PyInterval other) = PyBool false)
  /\ Interval___eq__ self (PyInterval other) <> PyNotImplemented.
Proof.
  unfold Interval___eq__. split; [| split].
  - by intros -> ->.
  - by destruct (Interval_is_empty self), (Interval_is_empty other).
  - by destruct (Interval_is_empty self || Interval_is_empty other).
Qed.

End IntervalFurtherProperties.

Lemma Interval___eq___empty_operands_witness :
  Interval___eq__ (mark_empty Interval_0_10) (PyInterval (mark_empty Interval_5_15))
    = PyBool true
  /\ Interval___eq__ (mark_empty Interval_0_10) (PyInterval Interval_0_10) = PyBool false.
Proof.
  split.
  - apply (proj1 (Interval___eq___empty_operands
                    (mark_empty Interval_0_10) (mark_empty Interval_5_15))); reflexivity.
  - apply (proj1 (proj2 (Interval___eq___empty_operands
                           (mark_empty Interval_0_10) Interval_0_10))).
    discriminate.
Defined.

(** ** [Interval]: inflation *)

(** X15.  On an interval with [int] bounds in order, inflating by an
    [int] delta and then by [-delta] gives the interval back exactly,
    whenever the first call succeeds.  On [float] bounds it does not:
    [Interval(1.0, 2.0).inflate(1e17).inflate(-1e17)] is
    [Interval(0.0, 0.0)]. *)
Theorem Interval_inflate_round_trip `{Py.NumPy} (a b d : Z) (r : Py.Interval) :
  (a <= b)%Z ->
  Py.Interval_inflate (Py.mkInterval (Py.py_int a) (Py.py_int b) true) (Py.py_int d) = Ok r ->
  Py.Interval_inflate r (Py.py_int (- d))
    = Ok (Py.mkInterval (Py.py_int a) (Py.py_int b) true)
  /\ (r ← Py.Interval_inflate (Py.mkInterval (Py.py_float 1) (Py.py_float 2) true)
                              (Py.py_float 1e17);
      Py.Interval_inflate r (Py.py_float (-1e17)))
     = Ok (Py.mkInterval (Py.py_float 0) (Py.py_float 0) true).
Proof.
  intros Hab Hr. split; [| reflexivity].
  unfold Py.Interval_inflate, Py.Interval___init__ in Hr. cbn in Hr.
  destruct (b + d <? a - d)%Z; [discriminate Hr |]. injection Hr as <-.
  unfold Py.Interval_inflate, Py.Interval___init__. cbn.
  replace (a - d - - d)%Z with a by lia. replace (b + d + - d)%Z with b by lia.
  by rewrite (proj2 (Z.ltb_ge b a) Hab).
Qed.

Lemma Interval_inflate_round_trip_witness :
  Py.Interval_inflate
    (Py.mkInterval (Py.py_int (-2)) (Py.py_int 3) true) (Py.py_int (-2))
  = Ok Py_Interval_0_1.
Proof.
  apply (Interval_inflate_round_trip 0 1 2
           (Py.mkInterval (Py.py_int (-2)) (Py.py_int 3) true)); [lia | reflexivity].
Defined.

(** ** [Plane]: construction and frame *)

Section PlaneFurtherProperties.
Context `{Math3D}.

Lemma Plane___init___defaults (origin : pyval) (plane : Plane) :
  Plane___init__ origin None None = Ok plane ->
  Plane_dir_x plane = UNITVECTOR3D_X /\ Plane_dir_z plane = UNITVECTOR3D_Z.
Proof.
  unfold Plane___init__. intros Hinit.
  apply bind_Ok_inv in Hinit as (o & _ & Hinit).
  apply bind_Ok_inv in Hinit as (r & Hr & Hinit).
  apply bind_Ok_inv in Hinit as (a & Ha & Hinit).
  destruct (is_perpendicular_to r a); [| discriminate].
  simpl in Hinit, Hr, Ha. injection Hinit as <-. injection Hr as <-. injection Ha as <-.
  by split.
Qed.

(** X17.  A plane that the constructor returns has a reference and an
    axis that pass the perpendicularity test; an origin given as a
    [Point3D] and directions given as [UnitVector3D] are stored as they
    are, and an omitted reference or axis is the x or the z axis. *)
Theorem Plane___init___postcondition
    (origin : pyval) (reference axis : option pyval) (plane : Plane) :
  Plane___init__ origin reference axis = Ok plane ->
  is_perpendicular_to (Plane_dir_x plane) (Plane_dir_z plane) = true
  /\ (forall o : Point3D, origin = PyPoint3D o -> Plane_origin plane = o)
  /\ (forall r : UnitVector3D,
        reference = Some (PyUnitVector3D r) -> Plane_dir_x plane = r)
  /\ (reference = None -> Plane_dir_x plane = UNITVECTOR3D_X)
  /\ (forall a : UnitVector3D,
        axis = Some (PyUnitVector3D a) -> Plane_dir_z plane = a)
  /\ (axis = None -> Plane_dir_z plane = UNITVECTOR3D_Z).
Proof.
  intros Hinit. split; [by eapply Plane___init___Ok |].
  unfold Plane___init__ in Hinit.
  apply bind_Ok_inv in Hinit as (o & Ho & Hinit).
  apply bind_Ok_inv in Hinit as (r & Hr & Hinit).
  apply bind_Ok_inv in Hinit as (a & Ha & Hinit).
  destruct (is_perpendicular_to r a); [| discriminate].
  simpl in Hinit. injection Hinit as <-.
  unfold Plane_origin, Plane_dir_x, Plane_dir_z. simpl.
  split; [by intros ? ->; injection Ho |].
  split; [by intros ? ->; injection Hr |].
  split; [by intros ->; injection Hr |].
  split; [by intros ? ->; injection Ha |].
  by intros ->; injection Ha.
Qed.

(** With an origin given as a [Point3D] and directions given as
    [UnitVector3D], the constructor raises [ValueError] exactly when
    the perpendicularity test fails. *)
Lemma Plane___init___rejects_non_perpendicular (o : Point3D) (r a : UnitVector3D) :
  (is_perpendicular_to r a = false ->
   Plane___init__ (PyPoint3D o) (Some (PyUnitVector3D r)) (Some (PyUnitVector3D a))
     = Raise (ValueError "Plane reference (dir_x) and axis (dir_z) must be perpendicular."))
  /\ (is_perpendicular_to r a = true ->
      Plane___init__ (PyPoint3D o) (Some (PyUnitVector3D r)) (Some (PyUnitVector3D a))
        = Ok (mkPlane o r a)).
Proof. unfold Plane___init__. simpl. split; by intros ->. Qed.

(** X18.  A plane that [Plane.__init__] constructs with the default
    reference and axis has the x axis as [dir_x], the z axis as [dir_z]
    and the y axis as [dir_y]. *)
Theorem Plane_default_frame (origin : pyval) (plane : Plane) :
  Plane___init__ origin None None = Ok plane ->
  Plane_dir_x plane = UNITVECTOR3D_X
  /\ Plane_dir_z plane = UNITVECTOR3D_Z
  /\ UnitVector3D_same (Plane_dir_y plane) (mkUnitVector3D 0 1 0).
Proof.
  intros Hinit.
  destruct (Plane___init___defaults _ _ Hinit) as [Hx Hz].
  unfold Plane_dir_y. rewrite Hx, Hz. by repeat split.
Qed.

End PlaneFurtherProperties.

Lemma Plane___init___postcondition_witness :
  is_perpendicular_to (Plane_dir_x Plane_tilted) (Plane_dir_z Plane_tilted) = true
  /\ Plane_dir_x Plane_tilted = UnitVector3D_3_4_0
  /\ Plane_dir_z Plane_tilted = UNITVECTOR3D_Z.
Proof.
  pose proof (Plane___init___postcondition
                (PyPoint3D (real_point 1 2 3)) (Some (PyUnitVector3D UnitVector3D_3_4_0)) None
                Plane_tilted eq_refl) as (Hperp & _ & Hx & _ & _ & Hz).
  exact (conj Hperp (conj (Hx UnitVector3D_3_4_0 eq_refl) (Hz eq_refl))).
Defined.

Lemma Plane_default_frame_witness :
  Plane_dir_x Plane_1_2_3 = UNITVECTOR3D_X
  /\ Plane_dir_z Plane_1_2_3 = UNITVECTOR3D_Z
  /\ UnitVector3D_same (Plane_dir_y Plane_1_2_3) (mkUnitVector3D 0 1 0).
Proof.
  apply (Plane_default_frame (PySeq [Fin 1; Fin 2; Fin 3])). reflexivity.
Defined.

(** ** [Plane] and [PlaneEvaluation]: geometry *)

(** X20.  On a plane with a real origin, projecting the origin gives
    the parameters [(0, 0)], and the position of that evaluation is the
    origin again. *)
Theorem Plane_project_point_origin (ox oy oz : Q) (x z : UnitVector3D) :
  ParamUV_same
    (PlaneEvaluation_parameter
       (Plane_project_point (mkPlane (real_point ox oy oz) x z) (real_point ox oy oz)))
    (mkParamUV (Fin 0) (Fin 0))
  /\ Point3D_same
       (PlaneEvaluation_position
          (Plane_project_point (mkPlane (real_point ox oy oz) x z) (real_point ox oy oz)))
       (real_point ox oy oz).
Proof.
  split.
  - split; simpl; ring.
  - repeat split; simpl; ring.
Qed.

(** X24.  The parameterization of every plane succeeds; both axes are
    [OPEN] and [LINEAR] over an interval that is open, not closed and
    not empty, and on which [get_span] raises [ValueError]. *)
Theorem Plane_parameterization_unbounded (self : Plane) :
  exists u v : Parameterization,
    Plane_parameterization self = Ok (u, v)
    /\ forall axis : Parameterization, axis = u \/ axis = v ->
       _form axis = OPEN /\ _type axis = LINEAR
       /\ Interval_is_open (_interval axis) = true
       /\ Interval_is_closed (_interval axis) = false
       /\ Interval_is_empty (_interval axis) = false
       /\ Interval_get_span (_interval axis)
          = Raise (ValueError "Interval must be closed to get the span.").
Proof.
  eexists _, _. split; [reflexivity |].
  intros axis [-> | ->]; by repeat split.
Qed.

(** ** [Admin]: the calls that the methods make *)

Lemma run_bind {W A B : Type} (h : handler W) (p : prog A) (k : A -> prog B) (w : W) :
  run h (p ≫= k) w =
  match run h p w with
  | (Ok a, w', calls) =>
      let '(r, w'', calls') := run h (k a) w' in (r, w'', calls ++ calls')
  | (Raise e, w', calls) => (Raise e, w', calls)
  end.
Proof.
  revert w. induction p as [a | e | C c k' IH]; intros w.
  - simpl. unfold mbind, prog_mbind. simpl. by destruct (run h (k a) w) as [[r w''] calls'].
  - reflexivity.
  - unfold mbind, prog_mbind in *. simpl.
    destruct (h C c w) as [[b | e] w1]; [| reflexivity].
    rewrite IH. destruct (run h (k' b) w1) as [[[a | e] w2] calls]; [| reflexivity].
    by destruct (run h (k a) w2) as [[r w3] calls'].
Qed.

Lemma run_bind_Ok {W A B : Type} (h : handler W) (p : prog A) (k : A -> prog B)
    (w w' : W) (b : B) (calls : list event) :
  run h (p ≫= k) w = (Ok b, w', calls) ->
  exists (a : A) (w1 : W) (calls1 calls2 : list event),
    run h p w = (Ok a, w1, calls1)
    /\ run h (k a) w1 = (Ok b, w', calls2)
    /\ calls = calls1 ++ calls2.
Proof.
  rewrite run_bind. destruct (run h p w) as [[[a | e] w1] calls1]; [| discriminate].
  destruct (run h (k a) w1) as [[r w2] calls2] eqn:Hk.
  intros [= -> -> <-]. by exists a, w1, calls1, calls2.
Qed.

Lemma run_perform {W B : Type} (h : handler W) (c : call B) (w : W) :
  run h (perform c) w =
  match h B c w with
  | (Ok b, w') => (Ok b, w', [Event c])
  | (Raise e, w') => (Raise e, w', [Event c])
  end.
Proof. unfold perform. simpl. by destruct (h B c w) as [[b | e] w']. Qed.

Lemma run_perform_Ok {W B : Type} (h : handler W) (c : call B) (w w' : W) (b : B)
    (calls : list event) :
  run h (perform c) w = (Ok b, w', calls) -> calls = [Event c] /\ h B c w = (Ok b, w').
Proof.
  rewrite run_perform. destruct (h B c w) as [[b' | e] w1]; [| discriminate].
  by intros [= -> -> <-].
Qed.

(** The loop that copies the stream of responses keeps every response,
    in order. *)
Lemma collect_responses_id (l : list LogsResponse) : collect_responses l = l.
Proof.
  unfold collect_responses.
  assert (forall acc : list LogsResponse,
            foldl (fun result response => result ++ [response]) acc l = acc ++ l) as Hgen.
  { induction l as [| x l IH]; intros acc; simpl.
    - by rewrite app_nil_r.
    - rewrite IH. by rewrite <- app_assoc. }
  apply Hgen.
Qed.

Section AdminProperties.
Context {W : Type} (h : handler W) (os_path_join : string -> string -> string).

(** The calls of one round of the loop of [write_output_logs] that
    ends without an exception. *)
Lemma write_output_log_Ok (output_folder : string) (log : LogsResponse)
    (w w' : W) (calls : list event) :
  run h (write_output_log os_path_join output_folder log) w = (Ok tt, w', calls) ->
  omap opened_path calls = [log_complete_path os_path_join output_folder log]
  /\ omap written_data calls = [log_chunk log]
  /\ length (omap closed_file calls) = 1%nat
  /\ Forall (fun path => path = log_folder output_folder log) (omap made_folder calls).
Proof.
  unfold write_output_log. intros Hrun.
  apply run_bind_Ok in Hrun as (isdir & w1 & c1 & c2 & H1 & Hrun & ->).
  apply run_perform_Ok in H1 as [-> _].
  apply run_bind_Ok in Hrun as ([] & w2 & c3 & c4 & H2 & Hrun & ->).
  apply run_bind_Ok in Hrun as (f & w3 & c5 & c6 & H3 & Hrun & ->).
  apply run_perform_Ok in H3 as [-> _].
  apply run_bind_Ok in Hrun as ([] & w4 & c7 & c8 & H4 & Hrun & ->).
  apply run_perform_Ok in H4 as [-> _].
  apply run_perform_Ok in Hrun as [-> _].
  destruct isdir; simpl in H2.
  - injection H2 as _ <-. simpl. repeat split. constructor.
  - apply run_perform_Ok in H2 as [-> _]. simpl. repeat split.
    constructor; [reflexivity | constructor].
Qed.

Lemma for_each_log_Ok (output_folder : string) (logs : list LogsResponse)
    (w w' : W) (calls : list event) :
  run h (for_each_log os_path_join output_folder logs) w = (Ok tt, w', calls) ->
  omap opened_path calls = map (log_complete_path os_path_join output_folder) logs
  /\ omap written_data calls = map log_chunk logs
  /\ length (omap closed_file calls) = length logs
  /\ Forall (fun path => exists log : LogsResponse,
                 log ∈ logs /\ path = log_folder output_folder log)
            (omap made_folder calls).
Proof.
  revert w calls. induction logs as [| log logs IH]; intros w calls Hrun.
  - simpl in Hrun. injection Hrun as _ <-. simpl. repeat split. constructor.
  - change (for_each_log os_path_join output_folder (log :: logs))
      with (write_output_log os_path_join output_folder log
              ≫= fun _ => for_each_log os_path_join output_folder logs) in Hrun.
    apply run_bind_Ok in Hrun as ([] & w1 & c1 & c2 & H1 & Hrun & ->).
    apply write_output_log_Ok in H1 as (Ho & Hw & Hc & Hm).
    apply IH in Hrun as (Ho' & Hw' & Hc' & Hm').
    rewrite !omap_app, Ho, Hw, Ho', Hw', length_app, Hc, Hc'. simpl.
    repeat split. apply Forall_app. split.
    + eapply Forall_impl; [exact Hm |]. intros path ->. exists log. split; [left | done].
    + eapply Forall_impl; [exact Hm' |]. intros path (log' & Hin & ->).
      exists log'. split; [by right | done].
Qed.

(** X26.  [write_output_logs] makes no call at all when [logs] is
    [None] or empty.  Otherwise, on a run in which no call raises, it
    opens one file per log, in the order of the logs, at the path
    [join(output_folder + relative_path, log_name)], writes the chunk of
    that log, closes as many files as it opened, and makes no directory
    other than the folders [output_folder + relative_path] of the
    logs. *)
Theorem Admin_write_output_logs_calls (output_folder : string) (logs : list LogsResponse)
    (w w' : W) (calls : list event) :
  run h (Admin_write_output_logs os_path_join output_folder None) w = (Ok tt, w, [])
  /\ run h (Admin_write_output_logs os_path_join output_folder (Some [])) w = (Ok tt, w, [])
  /\ (run h (Admin_write_output_logs os_path_join output_folder (Some logs)) w
        = (Ok tt, w', calls) ->
      omap opened_path calls = map (log_complete_path os_path_join output_folder) logs
      /\ omap written_data calls = map log_chunk logs
      /\ length (omap closed_file calls) = length logs
      /\ Forall (fun path => exists log : LogsResponse,
                     log ∈ logs /\ path = log_folder output_folder log)
                (omap made_folder calls)).
Proof.
  split; [reflexivity |]. split; [reflexivity |].
  unfold Admin_write_output_logs. destruct logs as [| log logs].
  - simpl. intros [= _ <-]. simpl. repeat split. constructor.
  - change (0 <? length (log :: logs))%nat with true. cbv iota.
    apply for_each_log_Ok.
Qed.

End AdminProperties.

Lemma run_bind_Raise {W A B : Type} (h : handler W) (p : prog A) (k : A -> prog B)
    (w w' : W) (e : exn) (calls : list event) :
  run h (p ≫= k) w = (Raise e, w', calls) ->
  run h p w = (Raise e, w', calls)
  \/ exists (a : A) (w1 : W) (calls1 calls2 : list event),
       run h p w = (Ok a, w1, calls1)
       /\ run h (k a) w1 = (Raise e, w', calls2)
       /\ calls = calls1 ++ calls2.
Proof.
  rewrite run_bind. destruct (run h p w) as [[[a | e'] w1] calls1].
  - destruct (run h (k a) w1) as [[r w2] calls2] eqn:Hk.
    intros [= -> -> <-]. right. by exists a, w1, calls1, calls2.
  - intros [= -> -> ->]. by left.
Qed.

Lemma run_perform_Raise {W B : Type} (h : handler W) (c : call B) (w w' : W) (e : exn)
    (calls : list event) :
  run h (perform c) w = (Raise e, w', calls) -> calls = [Event c].
Proof.
  rewrite run_perform. destruct (h B c w) as [[b | e'] w1]; [discriminate |].
  by intros [= _ _ <-].
Qed.

Lemma raised_in_write_app (calls1 calls2 : list event) :
  calls2 <> [] -> raised_in_write (calls1 ++ calls2) = raised_in_write calls2.
Proof.
  intros Hne. unfold raised_in_write.
  destruct calls2 as [| e calls2] using rev_ind; [done |].
  by rewrite app_assoc, !last_snoc.
Qed.

Section AdminFailureProperties.
Context {W : Type} (h : handler W) (os_path_join : string -> string -> string).

Lemma write_output_log_Raise (output_folder : string) (log : LogsResponse)
    (w w' : W) (e : exn) (calls : list event) :
  run h (write_output_log os_path_join output_folder log) w = (Raise e, w', calls) ->
  calls <> []
  /\ (raised_in_write calls = true ->
      length (omap opened_path calls) = 1%nat /\ omap closed_file calls = []).
Proof.
  unfold write_output_log. intros Hrun.
  apply run_bind_Raise in Hrun
    as [Hrun | (isdir & w1 & c1 & c2 & H1 & Hrun & ->)].
  { apply run_perform_Raise in Hrun as ->. by split. }
  apply run_perform_Ok in H1 as [-> _].
  apply run_bind_Raise in Hrun as [Hrun | ([] & w2 & c3 & c4 & H2 & Hrun & ->)].
  { destruct isdir; simpl in Hrun; [discriminate |].
    apply run_perform_Raise in Hrun as ->. by split. }
  assert (omap opened_path c3 = [] /\ omap closed_file c3 = []) as [Ho3 Hc3].
  { destruct isdir; simpl in H2.
    - by injection H2 as _ <-.
    - by apply run_perform_Ok in H2 as [-> _]. }
  apply run_bind_Raise in Hrun as [Hrun | (f & w3 & c5 & c6 & H3 & Hrun & ->)].
  { apply run_perform_Raise in Hrun as ->. split; [done |].
    rewrite (raised_in_write_app [_] (c3 ++ [_])) by (by destruct c3).
    by rewrite raised_in_write_app. }
  apply run_perform_Ok in H3 as [-> _].
  apply run_bind_Raise in Hrun as [Hrun | ([] & w4 & c7 & c8 & H4 & Hrun & ->)].
  { apply run_perform_Raise in Hrun as ->. split; [done |]. intros _.
    simpl. rewrite !omap_app, Ho3, Hc3. by split. }
  apply run_perform_Ok in H4 as [-> _].
  apply run_perform_Raise in Hrun as ->. split; [done |].
  rewrite (raised_in_write_app [_] (c3 ++ _)) by (by destruct c3).
  rewrite (raised_in_write_app c3) by done.
  by rewrite (raised_in_write_app [_] ([_] ++ [_])).
Qed.

Lemma for_each_log_Raise (output_folder : string) (logs : list LogsResponse)
    (w w' : W) (e : exn) (calls : list event) :
  run h (for_each_log os_path_join output_folder logs) w = (Raise e, w', calls) ->
  raised_in_write calls = true ->
  length (omap opened_path calls) = S (length (omap closed_file calls)).
Proof.
  revert w calls. induction logs as [| log logs IH]; intros w calls Hrun Hlast.
  - discriminate Hrun.
  - change (for_each_log os_path_join output_folder (log :: logs))
      with (write_output_log os_path_join output_folder log
              ≫= fun _ => for_each_log os_path_join output_folder logs) in Hrun.
    apply run_bind_Raise in Hrun as [Hrun | ([] & w1 & c1 & c2 & H1 & Hrun & ->)].
    + apply write_output_log_Raise in Hrun as [_ Hrun].
      destruct (Hrun Hlast) as [-> ->]. reflexivity.
    + assert (c2 <> []) as Hne.
      { destruct logs as [| log' logs']; [discriminate Hrun |].
        change (for_each_log os_path_join output_folder (log' :: logs'))
          with (write_output_log os_path_join output_folder log'
                  ≫= fun _ => for_each_log os_path_join output_folder logs') in Hrun.
        apply run_bind_Raise in Hrun as [Hrun | ([] & w2 & c3 & c4 & H2 & _ & ->)].
        - by apply write_output_log_Raise in Hrun as [? _].
        - apply write_output_log_Ok in H2 as (Ho & _). by destruct c3. }
      rewrite raised_in_write_app in Hlast by done.
      apply write_output_log_Ok in H1 as (Ho & _ & Hc & _).
      rewrite !omap_app, !length_app, Ho, Hc. simpl.
      by rewrite (IH _ _ Hrun Hlast).
Qed.

(** X27.  [write_output_logs] does not close the file of a log when
    writing to it raises: on a run that ends with an exception raised
    by a [write], one more file has been opened than closed. *)
Theorem Admin_write_output_logs_leaves_file_open
    (output_folder : string) (logs : list LogsResponse)
    (w w' : W) (e : exn) (calls : list event) :
  run h (Admin_write_output_logs os_path_join output_folder (Some logs)) w
    = (Raise e, w', calls) ->
  raised_in_write calls = true ->
  length (omap opened_path calls) = S (length (omap closed_file calls)).
Proof.
  unfold Admin_write_output_logs. destruct (0 <? length logs)%nat; [| discriminate].
  apply for_each_log_Raise.
Qed.

End AdminFailureProperties.

Lemma Admin_write_output_logs_calls_witness :
  let r := run test_handler
             (Admin_write_output_logs test_join "out" (Some [log_a; log_b])) world_0 in
  omap opened_path r.2
    = ["out/run1/Logs/Application.log"; "out/run2/Logs/Geometry.log"]%string
  /\ omap written_data r.2 = [log_chunk log_a; log_chunk log_b]
  /\ length (omap closed_file r.2) = 2%nat
  /\ Forall (fun path => exists log : LogsResponse,
                 log ∈ [log_a; log_b] /\ path = log_folder "out" log)
            (omap made_folder r.2).
Proof.
  intros r.
  apply (proj2 (proj2 (Admin_write_output_logs_calls test_handler test_join
                         "out" [log_a; log_b] world_0 r.1.2 r.2))).
  reflexivity.
Defined.

Lemma Admin_write_output_logs_leaves_file_open_witness :
  let r := run full_disk_handler
             (Admin_write_output_logs test_join "out" (Some [log_a; log_b])) tt in
  length (omap opened_path r.2) = S (length (omap closed_file r.2)).
Proof.
  intros r.
  apply (Admin_write_output_logs_leaves_file_open full_disk_handler test_join
           "out" [log_a; log_b] tt r.1.2 (Exception "No space left on device") r.2);
    reflexivity.
Defined.

Section AdminExportProperties.
Context {W : Type} (h : handler W) (os_path_join : string -> string -> string).

Lemma Admin_check_and_make_output_folder_calls (output_folder : string)
    (r : result unit) (w w' : W) (calls : list event) :
  run h (Admin_check_and_make_output_folder output_folder) w = (r, w', calls) ->
  head calls ≫= checked_folder = Some output_folder
  /\ omap sent_request calls = [] /\ omap opened_path calls = []
  /\ omap written_data calls = [] /\ omap closed_file calls = []
  /\ Forall (fun path => path = output_folder) (omap made_folder calls).
Proof.
  unfold Admin_check_and_make_output_folder, perform, mbind, prog_mbind. simpl.
  destruct (h bool (os_path_isdir output_folder) w) as [[[] | e] w1]; simpl.
  - intros [= _ _ <-]. repeat split. constructor.
  - destruct (h unit (os_mkdir output_folder) w1) as [[[] | e] w2];
      intros [= _ _ <-]; repeat split; by constructor.
  - intros [= _ _ <-]. repeat split. constructor.
Qed.

Lemma Admin_get_logs_Ok (period : PeriodType) (result : list LogsResponse)
    (w w' : W) (calls : list event) :
  run h (response_iterator ← perform (AdminStub_GetLogs (mkLogsRequest period CLIENT None None));
         Return (collect_responses response_iterator)) w = (Ok result, w', calls) ->
  h _ (AdminStub_GetLogs (mkLogsRequest period CLIENT None None)) w = (Ok result, w')
  /\ calls = [Event (AdminStub_GetLogs (mkLogsRequest period CLIENT None None))].
Proof.
  intros Hrun. apply run_bind_Ok in Hrun as (l & w1 & c1 & c2 & H1 & Hrun & ->).
  apply run_perform_Ok in H1 as [-> Hh]. simpl in Hrun.
  rewrite collect_responses_id in Hrun. injection Hrun as <- <- <-. by split.
Qed.

Lemma write_output_log_no_request (output_folder : string) (log : LogsResponse)
    (w w' : W) (calls : list event) :
  run h (write_output_log os_path_join output_folder log) w = (Ok tt, w', calls) ->
  omap sent_request calls = [].
Proof.
  unfold write_output_log. intros Hrun.
  apply run_bind_Ok in Hrun as (isdir & w1 & c1 & c2 & H1 & Hrun & ->).
  apply run_perform_Ok in H1 as [-> _].
  apply run_bind_Ok in Hrun as ([] & w2 & c3 & c4 & H2 & Hrun & ->).
  apply run_bind_Ok in Hrun as (f & w3 & c5 & c6 & H3 & Hrun & ->).
  apply run_perform_Ok in H3 as [-> _].
  apply run_bind_Ok in Hrun as ([] & w4 & c7 & c8 & H4 & Hrun & ->).
  apply run_perform_Ok in H4 as [-> _].
  apply run_perform_Ok in Hrun as [-> _].
  destruct isdir; simpl in H2.
  - by injection H2 as _ <-.
  - by apply run_perform_Ok in H2 as [-> _].
Qed.

Lemma for_each_log_no_request (output_folder : string) (logs : list LogsResponse)
    (w w' : W) (calls : list event) :
  run h (for_each_log os_path_join output_folder logs) w = (Ok tt, w', calls) ->
  omap sent_request calls = [].
Proof.
  revert w calls. induction logs as [| log logs IH]; intros w calls Hrun.
  - by injection Hrun as _ <-.
  - change (for_each_log os_path_join output_folder (log :: logs))
      with (write_output_log os_path_join output_folder log
              ≫= fun _ => for_each_log os_path_join output_folder logs) in Hrun.
    apply run_bind_Ok in Hrun as ([] & w1 & c1 & c2 & H1 & Hrun & ->).
    by rewrite omap_app, (write_output_log_no_request _ _ _ _ _ H1), (IH _ _ Hrun).
Qed.

Lemma Admin_write_output_logs_Ok (output_folder : string) (logs : list LogsResponse)
    (w w' : W) (calls : list event) :
  run h (Admin_write_output_logs os_path_join output_folder (Some logs)) w
    = (Ok tt, w', calls) ->
  run h (for_each_log os_path_join output_folder logs) w = (Ok tt, w', calls).
Proof.
  unfold Admin_write_output_logs. by destruct logs.
Qed.

Lemma Admin_export_logs_Ok (period : PeriodType) (output_folder : string)
    (result : list LogsResponse) (w w' : W) (calls : list event) :
  run h (_ ← Admin_check_and_make_output_folder output_folder;
         result ← (response_iterator ←
                     perform (AdminStub_GetLogs (mkLogsRequest period CLIENT None None));
                   Return (collect_responses response_iterator));
         _ ← Admin_write_output_logs os_path_join output_folder (Some result);
         Return result) w = (Ok result, w', calls) ->
  head calls ≫= checked_folder = Some output_folder
  /\ omap sent_request calls = [mkLogsRequest period CLIENT None None]
  /\ (exists w1 w2 : W,
        h _ (AdminStub_GetLogs (mkLogsRequest period CLIENT None None)) w1 = (Ok result, w2))
  /\ omap opened_path calls = map (log_complete_path os_path_join output_folder) result
  /\ omap written_data calls = map log_chunk result
  /\ length (omap closed_file calls) = length result.
Proof.
  intros Hrun.
  apply run_bind_Ok in Hrun as ([] & w1 & c1 & c2 & H1 & Hrun & ->).
  apply Admin_check_and_make_output_folder_calls in H1 as (Hhead & Hs1 & Ho1 & Hw1 & Hc1 & _).
  apply run_bind_Ok in Hrun as (res & w2 & c3 & c4 & H2 & Hrun & ->).
  apply Admin_get_logs_Ok in H2 as [Hh ->].
  apply run_bind_Ok in Hrun as ([] & w3 & c5 & c6 & H3 & Hrun & ->).
  simpl in Hrun. injection Hrun as -> _ <-.
  apply Admin_write_output_logs_Ok in H3.
  pose proof (for_each_log_no_request _ _ _ _ _ H3) as Hs5.
  apply (for_each_log_Ok h os_path_join) in H3 as (Ho & Hd & Hc & _).
  split.
  { destruct c1; [discriminate Hhead | exact Hhead]. }
  rewrite !omap_app, Hs1, Ho1, Hw1, Hc1, Hs5, Ho, Hd. simpl.
  rewrite !app_nil_r, Hc. repeat split. by exists w1, w2.
Qed.

Lemma write_output_log_written (output_folder : string) (log : LogsResponse)
    (w w' : W) (calls : list event) :
  run h (write_output_log os_path_join output_folder log) w = (Ok tt, w', calls) ->
  log_written h os_path_join output_folder log w calls w'.
Proof.
  unfold write_output_log. intros Hrun.
  apply run_bind_Ok in Hrun as (isdir & w1 & c1 & c2 & H1 & Hrun & ->).
  apply run_perform_Ok in H1 as [-> H1].
  apply run_bind_Ok in Hrun as ([] & w2 & c3 & c4 & H2 & Hrun & ->).
  apply run_bind_Ok in Hrun as (f & w3 & c5 & c6 & H3 & Hrun & ->).
  apply run_perform_Ok in H3 as [-> H3].
  apply run_bind_Ok in Hrun as ([] & w4 & c7 & c8 & H4 & Hrun & ->).
  apply run_perform_Ok in H4 as [-> H4].
  apply run_perform_Ok in Hrun as [-> H5].
  destruct isdir; simpl in H2.
  - injection H2 as <- <-. by eapply log_written_folder_exists.
  - apply run_perform_Ok in H2 as [-> H2]. by eapply log_written_folder_made.
Qed.

Lemma for_each_log_written (output_folder : string) (logs : list LogsResponse)
    (w w' : W) (calls : list event) :
  run h (for_each_log os_path_join output_folder logs) w = (Ok tt, w', calls) ->
  logs_written h os_path_join output_folder logs w calls w'.
Proof.
  revert w calls. induction logs as [| log logs IH]; intros w calls Hrun.
  - injection Hrun as <- <-. constructor.
  - change (for_each_log os_path_join output_folder (log :: logs))
      with (write_output_log os_path_join output_folder log
              ≫= fun _ => for_each_log os_path_join output_folder logs) in Hrun.
    apply run_bind_Ok in Hrun as ([] & w1 & c1 & c2 & H1 & Hrun & ->).
    eapply logs_written_cons; [by apply write_output_log_written | by apply IH].
Qed.

Lemma Admin_export_logs_written (period : PeriodType) (output_folder : string)
    (result : list LogsResponse) (w w' : W) (calls : list event) :
  run h (_ ← Admin_check_and_make_output_folder output_folder;
         result ← (response_iterator ←
                     perform (AdminStub_GetLogs (mkLogsRequest period CLIENT None None));
                   Return (collect_responses response_iterator));
         _ ← Admin_write_output_logs os_path_join output_folder (Some result);
         Return result) w = (Ok result, w', calls) ->
  exists (w1 w2 : W) (calls1 calls2 : list event),
    run h (Admin_check_and_make_output_folder output_folder) w = (Ok tt, w1, calls1)
    /\ h _ (AdminStub_GetLogs (mkLogsRequest period CLIENT None None)) w1 = (Ok result, w2)
    /\ logs_written h os_path_join output_folder result w2 calls2 w'
    /\ calls = calls1
               ++ Event (AdminStub_GetLogs (mkLogsRequest period CLIENT None None))
               :: calls2.
Proof.
  intros Hrun.
  apply run_bind_Ok in Hrun as ([] & w1 & c1 & c2 & H1 & Hrun & ->).
  apply run_bind_Ok in Hrun as (res & w2 & c3 & c4 & H2 & Hrun & ->).
  apply Admin_get_logs_Ok in H2 as [Hh ->].
  apply run_bind_Ok in Hrun as ([] & w3 & c5 & c6 & H3 & Hrun & ->).
  simpl in Hrun. injection Hrun as -> -> <-.
  apply Admin_write_output_logs_Ok, for_each_log_written in H3.
  exists w1, w2, c1, c5. rewrite app_nil_r. by repeat split.
Qed.

(** X28.  On a run in which no call raises, [export_current_log] and
    [export_all_logs] first run [check_and_make_output_folder], then
    send one request (for the current period, or for all periods) to
    the service in the state that the folder check left, and return
    the responses that the service gave to this request, unchanged.
    After the request they make, for every returned log in order, the
    calls of one passage of the loop: the file
    [join(output_folder + relative_path, log_name)] is opened, and the
    chunk of the log is written to the file object that this [open]
    returned, which is then closed.  These are all the calls of the
    run. *)
Theorem Admin_export_logs_writes_what_it_returns (output_folder : string)
    (result : list LogsResponse) (w w' : W) (calls : list event) :
  (run h (Admin_export_current_log os_path_join output_folder) w = (Ok result, w', calls) ->
   (exists (w1 w2 : W) (calls1 calls2 : list event),
      run h (Admin_check_and_make_output_folder output_folder) w = (Ok tt, w1, calls1)
      /\ h _ (AdminStub_GetLogs (mkLogsRequest CURRENT CLIENT None None)) w1
         = (Ok result, w2)
      /\ logs_written h os_path_join output_folder result w2 calls2 w'
      /\ calls = calls1
                 ++ Event (AdminStub_GetLogs (mkLogsRequest CURRENT CLIENT None None))
                 :: calls2)
   /\ head calls ≫= checked_folder = Some output_folder
   /\ omap sent_request calls = [mkLogsRequest CURRENT CLIENT None None]
   /\ omap opened_path calls = map (log_complete_path os_path_join output_folder) result
   /\ omap written_data calls = map log_chunk result
   /\ length (omap closed_file calls) = length result)
  /\ (run h (Admin_export_all_logs os_path_join output_folder) w = (Ok result, w', calls) ->
      (exists (w1 w2 : W) (calls1 calls2 : list event),
         run h (Admin_check_and_make_output_folder output_folder) w = (Ok tt, w1, calls1)
         /\ h _ (AdminStub_GetLogs (mkLogsRequest ALL CLIENT None None)) w1
            = (Ok result, w2)
         /\ logs_written h os_path_join output_folder result w2 calls2 w'
         /\ calls = calls1
                    ++ Event (AdminStub_GetLogs (mkLogsRequest ALL CLIENT None None))
                    :: calls2)
      /\ head calls ≫= checked_folder = Some output_folder
      /\ omap sent_request calls = [mkLogsRequest ALL CLIENT None None]
      /\ omap opened_path calls = map (log_complete_path os_path_join output_folder) result
      /\ omap written_data calls = map log_chunk result
      /\ length (omap closed_file calls) = length result).
Proof.
  split; intros Hrun.
  - split; [exact (Admin_export_logs_written _ _ _ _ _ _ Hrun) |].
    destruct (Admin_export_logs_Ok _ _ _ _ _ _ Hrun) as (Hh & Hs & _ & Ho & Hd & Hc).
    by repeat split.
  - split; [exact (Admin_export_logs_written _ _ _ _ _ _ Hrun) |].
    destruct (Admin_export_logs_Ok _ _ _ _ _ _ Hrun) as (Hh & Hs & _ & Ho & Hd & Hc).
    by repeat split.
Qed.

(** X29.  When the test or the creation of the output folder raises,
    [export_current_log] and [export_all_logs] raise the same
    exception after the same calls: no request is sent to the service
    and no file is opened. *)
Theorem Admin_export_logs_stops_at_folder_error (output_folder : string)
    (e : exn) (w w' : W) (calls : list event) :
  run h (Admin_check_and_make_output_folder output_folder) w = (Raise e, w', calls) ->
  run h (Admin_export_current_log os_path_join output_folder) w = (Raise e, w', calls)
  /\ run h (Admin_export_all_logs os_path_join output_folder) w = (Raise e, w', calls)
  /\ omap sent_request calls = [] /\ omap opened_path calls = [].
Proof.
  intros Hcheck. unfold Admin_export_current_log, Admin_export_all_logs.
  rewrite !run_bind, Hcheck.
  apply Admin_check_and_make_output_folder_calls in Hcheck as (_ & Hs & Ho & _).
  by repeat split.
Qed.

End AdminExportProperties.

Lemma Admin_export_logs_writes_what_it_returns_witness :
  let r := run test_handler (Admin_export_current_log test_join "out") world_0 in
  let r' := run test_handler (Admin_export_all_logs test_join "out") world_0 in
  ((exists (w1 w2 : test_world) (calls1 calls2 : list event),
      run test_handler (Admin_check_and_make_output_folder "out") world_0
        = (Ok tt, w1, calls1)
      /\ test_handler _ (AdminStub_GetLogs (mkLogsRequest CURRENT CLIENT None None)) w1
         = (Ok [log_a; log_b], w2)
      /\ logs_written test_handler test_join "out" [log_a; log_b] w2 calls2 r.1.2
      /\ r.2 = calls1
               ++ Event (AdminStub_GetLogs (mkLogsRequest CURRENT CLIENT None None))
               :: calls2)
   /\ omap opened_path r.2
      = ["out/run1/Logs/Application.log"; "out/run2/Logs/Geometry.log"]%string
   /\ omap written_data r.2 = [log_chunk log_a; log_chunk log_b])
  /\ ((exists (w1 w2 : test_world) (calls1 calls2 : list event),
         run test_handler (Admin_check_and_make_output_folder "out") world_0
           = (Ok tt, w1, calls1)
         /\ test_handler _ (AdminStub_GetLogs (mkLogsRequest ALL CLIENT None None)) w1
            = (Ok [log_a; log_b], w2)
         /\ logs_written test_handler test_join "out" [log_a; log_b] w2 calls2 r'.1.2
         /\ r'.2 = calls1
                   ++ Event (AdminStub_GetLogs (mkLogsRequest ALL CLIENT None None))
                   :: calls2)
      /\ omap opened_path r'.2
         = ["out/run1/Logs/Application.log"; "out/run2/Logs/Geometry.log"]%string
      /\ omap written_data r'.2 = [log_chunk log_a; log_chunk log_b]).
Proof.
  intros r r'. split.
  - destruct (proj1 (Admin_export_logs_writes_what_it_returns test_handler test_join
                       "out" [log_a; log_b] world_0 r.1.2 r.2) eq_refl)
      as (Htrace & _ & _ & Ho & Hw & _).
    exact (conj Htrace (conj Ho Hw)).
  - destruct (proj2 (Admin_export_logs_writes_what_it_returns test_handler test_join
                       "out" [log_a; log_b] world_0 r'.1.2 r'.2) eq_refl)
      as (Htrace & _ & _ & Ho & Hw & _).
    exact (conj Htrace (conj Ho Hw)).
Defined.

(** The calls of [export_current_log("out")] on the test world: the
    two chunks go to the file objects [0] and [1], which the two calls
    of [open] returned. *)
Lemma Admin_export_current_log_trace :
  (run test_handler (Admin_export_current_log test_join "out") world_0).2
  = [Event (os_path_isdir "out");
     Event (AdminStub_GetLogs (mkLogsRequest CURRENT CLIENT None None));
     Event (os_path_isdir "out/run1/Logs");
     Event (open_wb "out/run1/Logs/Application.log");
     Event (file_write 0%nat (log_chunk log_a));
     Event (file_close 0%nat);
     Event (os_path_isdir "out/run2/Logs");
     Event (os_makedirs "out/run2/Logs");
     Event (open_wb "out/run2/Logs/Geometry.log");
     Event (file_write 1%nat (log_chunk log_b));
     Event (file_close 1%nat)].
Proof. reflexivity. Qed.

Lemma Admin_export_logs_stops_at_folder_error_witness :
  run read_only_handler (Admin_export_current_log test_join "out") tt
    = (Raise (Exception "Read-only file system"), tt,
       [Event (os_path_isdir "out"); Event (os_mkdir "out")])
  /\ run read_only_handler (Admin_export_all_logs test_join "out") tt
     = (Raise (Exception "Read-only file system"), tt,
        [Event (os_path_isdir "out"); Event (os_mkdir "out")]).
Proof.
  destruct (Admin_export_logs_stops_at_folder_error read_only_handler test_join "out"
              (Exception "Read-only file system") tt tt
              [Event (os_path_isdir "out"); Event (os_mkdir "out")] eq_refl)
    as (Hc & Ha & _).
  exact (conj Hc Ha).
Defined.

Lemma Plane_parameterization_unbounded_witness :
  exists u v : Parameterization,
    Plane_parameterization Plane_1_2_3 = Ok (u, v)
    /\ Interval_is_open (_interval u) = true
    /\ Interval_get_span (_interval v)
       = Raise (ValueError "Interval must be closed to get the span.").
Proof.
  destruct (Plane_parameterization_unbounded Plane_1_2_3) as (u & v & Hp & Haxes).
  exists u, v. split; [exact Hp |]. split.
  - apply (Haxes u). by left.
  - apply (Haxes v). by right.
Defined.
